(** * Product API: a shallow embedding of [perfect-api.py]

    The service keeps two in-memory collections, [products_db] and
    [tasks_db], and exposes CRUD routes over them.  The embedding below
    follows the source function by function:

    - Python [float] values are IEEE 754 numbers, modelled by the
      Standard Library's [spec_float] with its comparison functions;
    - a Python [dict] keeps its keys in insertion order, so a store is
      an association list with the dict's assignment and deletion;
    - the handlers read and write the two global stores and call
      [uuid.uuid4()] and [datetime.utcnow()]; they are written in a small
      state-and-exception monad over a [world] that also counts the
      calls made to the two generators, whose successive answers are the
      section variables [uuid4] and [utcnow];
    - the declared request models ([Field(..., gt=0.0)] and the like)
      are checked by the framework before a handler is entered; the
      routes below do the same. *)

From Stdlib Require Import ZArith List Bool String Ascii Lia SpecFloat.
From stdpp Require Import base list strings pretty.

Local Open Scope string_scope.
Local Open Scope Z_scope.

Set Warnings "-register-all".

(** ** Python values *)

Definition float := spec_float.
Definition datetime := Z.

(** Python's [a > b], [a >= b] and [a <= b] on floats: the IEEE
    comparisons, false as soon as one side is NaN. *)
Definition float_gt (a b : float) : bool := SFltb b a.
Definition float_ge (a b : float) : bool := SFleb b a.
Definition float_le (a b : float) : bool := SFleb a b.

(** The literals [0] and [0.0] of the declared bounds. *)
Definition float_zero : float := S754_zero false.

(** ** Insertion-ordered dictionaries *)

Abbreviation dict V := (list (string * V)).

Fixpoint dict_get {V} (k : string) (d : dict V) : option V :=
  match d with
  | [] => None
  | (k', v) :: d' => if String.eqb k' k then Some v else dict_get k d'
  end.

(** [k in d] *)
Definition dict_contains {V} (k : string) (d : dict V) : bool :=
  match dict_get k d with Some _ => true | None => false end.

(** [d[k] = v]: an existing key keeps its position, a new one goes last. *)
Fixpoint dict_set {V} (k : string) (v : V) (d : dict V) : dict V :=
  match d with
  | [] => [(k, v)]
  | (k', v') :: d' =>
      if String.eqb k' k then (k', v) :: d' else (k', v') :: dict_set k v d'
  end.

(** [del d[k]] *)
Fixpoint dict_del {V} (k : string) (d : dict V) : dict V :=
  match d with
  | [] => []
  | (k', v') :: d' =>
      if String.eqb k' k then d' else (k', v') :: dict_del k d'
  end.

Definition dict_keys {V} (d : dict V) : list string := map fst d.
Definition dict_values {V} (d : dict V) : list V := map snd d.

(** ** Models *)

Inductive ProductCategory :=
| ELECTRONICS | CLOTHING | FOOD | BOOKS | OTHER.

(** The value of each member of the [str] enumeration. *)
Definition ProductCategory_value (c : ProductCategory) : string :=
  match c with
  | ELECTRONICS => "electronics"
  | CLOTHING => "clothing"
  | FOOD => "food"
  | BOOKS => "books"
  | OTHER => "other"
  end.

Definition ProductCategory_eqb (a b : ProductCategory) : bool :=
  match a, b with
  | ELECTRONICS, ELECTRONICS | CLOTHING, CLOTHING | FOOD, FOOD
  | BOOKS, BOOKS | OTHER, OTHER => true
  | _, _ => false
  end.

(** Truth value of a member of an enumeration mixed with [str]: that of
    its string value. *)
Definition ProductCategory_truthy (c : ProductCategory) : bool :=
  negb (String.eqb (ProductCategory_value c) "").

Definition all_categories : list ProductCategory :=
  [ELECTRONICS; CLOTHING; FOOD; BOOKS; OTHER].

Definition ProductCategory_of_string (s : string) : option ProductCategory :=
  List.find (fun c => String.eqb (ProductCategory_value c) s) all_categories.

Module ProductBase.
Record t := Build {
  name : string;
  description : string;
  price : float;
  category : ProductCategory;
  in_stock : bool;
  tags : list string
}.
End ProductBase.

(** [Product(ProductBase)]: the inherited fields and the system ones. *)
Module Product.
Record t := Build {
  id : string;
  base : ProductBase.t;
  created_at : datetime;
  updated_at : datetime
}.
End Product.

Module TaskCreate.
Record t := Build {
  title : string;
  description : option string
}.
End TaskCreate.

Module Task.
Record t := Build {
  id : string;
  fields : TaskCreate.t
}.
End Task.

(** The [detail] of the exception raised for an unknown product. *)
Record ErrorDetail := { error : string; code : Z }.

Record HTTPException := { status_code : Z; detail : ErrorDetail }.

(** ** JSON values

    JSON-like Python values: [None], [bool], [int], [float], [str],
    [list] and [dict].  The values handled below are trees: no list or
    dict object occurs twice inside a value. *)
Inductive json :=
| JNone
| JBool (b : bool)
| JInt (n : Z)
| JFloat (x : float)
| JStr (s : string)
| JList (items : list json)
| JDict (entries : list (string * json)).

(** A float that JSON can write: neither an infinity nor NaN. *)
Definition finite_float (x : float) : bool :=
  match x with
  | S754_zero _ | S754_finite _ _ _ => true
  | S754_infinity _ | S754_nan => false
  end.

(** [json.dumps(v, allow_nan=False)] succeeds: no float inside [v] is
    an infinity or NaN. *)
Fixpoint finite_json (v : json) : bool :=
  match v with
  | JFloat x => finite_float x
  | JList items => forallb finite_json items
  | JDict entries => forallb (fun kv => finite_json (snd kv)) entries
  | _ => true
  end.

(** ** Request validation

    A declared field of a request, as the framework reads it: absent;
    present with a value that it cannot read as the declared type; or
    present and read as the value [a] of the declared type.  The reading
    is pydantic's: a price sent as the text of a number is read as that
    number, an [in_stock] sent as [1] or as the text [yes] is read as
    [True]; what was sent is kept apart, in the field [sent] of a body. *)

Inductive field (A : Type) :=
| missing
| wrong_type
| given (a : A).
Arguments missing {A}.
Arguments wrong_type {A}.
Arguments given {A} a.

Inductive ErrorKind :=
| value_error_missing
| type_error
| too_short
| too_long
| not_gt
| not_ge
| not_enum.

Record ErrorItem := { loc : list string; kind : ErrorKind }.

Definition checked (A : Type) : Type := (list ErrorItem + A)%type.

Definition errors_of {A} (c : checked A) : list ErrorItem :=
  match c with inl es => es | inr _ => [] end.

(** One declared field: [default] is [None] for [Field(...)]. *)
Definition check_field {A B} (place fname : string) (default : option B)
    (constraint : A -> ErrorKind + B) (f : field A) : checked B :=
  match f with
  | missing =>
      match default with
      | Some d => inr d
      | None => inl [{| loc := [place; fname]; kind := value_error_missing |}]
      end
  | wrong_type => inl [{| loc := [place; fname]; kind := type_error |}]
  | given a =>
      match constraint a with
      | inl k => inl [{| loc := [place; fname]; kind := k |}]
      | inr b => inr b
      end
  end.

Definition unconstrained {A} (a : A) : ErrorKind + A := inr a.

(** [min_length=1, max_length=100] *)
Definition length_1_100 (s : string) : ErrorKind + string :=
  if (String.length s <? 1)%nat then inl too_short
  else if (100 <? String.length s)%nat then inl too_long
  else inr s.

(** [gt=0.0] *)
Definition gt_0 (x : float) : ErrorKind + float :=
  if float_gt x float_zero then inr x else inl not_gt.

(** [ge=0] *)
Definition ge_0 (x : float) : ErrorKind + float :=
  if float_ge x float_zero then inr x else inl not_ge.

Definition member_of_ProductCategory (s : string) : ErrorKind + ProductCategory :=
  match ProductCategory_of_string s with
  | Some c => inr c
  | None => inl not_enum
  end.

(** The JSON body sent for a [ProductBase] or [ProductCreate]: the
    body as it was sent, and how each declared field is read from it. *)
Module ProductBody.
Record t := Build {
  sent : json;
  name : field string;
  description : field string;
  price : field float;
  category : field string;
  in_stock : field bool;
  tags : field (list string)
}.
End ProductBody.

Module TaskBody.
Record t := Build {
  sent : json;
  title : field string;
  description : field string
}.
End TaskBody.

Definition validate_ProductBase (b : ProductBody.t) : checked ProductBase.t :=
  let name := check_field "body" "name" None length_1_100 (ProductBody.name b) in
  let description :=
    check_field "body" "description" None unconstrained (ProductBody.description b) in
  let price := check_field "body" "price" None gt_0 (ProductBody.price b) in
  let category :=
    check_field "body" "category" None member_of_ProductCategory
      (ProductBody.category b) in
  let in_stock :=
    check_field "body" "in_stock" (Some true) unconstrained (ProductBody.in_stock b) in
  let tags := check_field "body" "tags" (Some []) unconstrained (ProductBody.tags b) in
  match name, description, price, category, in_stock, tags with
  | inr n, inr d, inr p, inr c, inr s, inr t => inr (ProductBase.Build n d p c s t)
  | _, _, _, _, _, _ =>
      inl (errors_of name ++ errors_of description ++ errors_of price
           ++ errors_of category ++ errors_of in_stock ++ errors_of tags)%list
  end.

Definition validate_TaskCreate (b : TaskBody.t) : checked TaskCreate.t :=
  let title := check_field "body" "title" None length_1_100 (TaskBody.title b) in
  let description :=
    check_field "body" "description" (Some None)
      (fun s : string => inr (Some s)) (TaskBody.description b) in
  match title, description with
  | inr t, inr d => inr (TaskCreate.Build t d)
  | _, _ => inl (errors_of title ++ errors_of description)%list
  end.

(** The query string of [GET /products]. *)
Module ProductQuery.
Record t := Build {
  category : field string;
  min_price : field float;
  max_price : field float;
  in_stock : field bool
}.
End ProductQuery.

(** The arguments [get_products] is called with. *)
Module ProductFilters.
Record t := Build {
  category : option ProductCategory;
  min_price : option float;
  max_price : option float;
  in_stock : option bool
}.
End ProductFilters.

Definition optional {A B} (constraint : A -> ErrorKind + B) (a : A)
    : ErrorKind + option B :=
  match constraint a with
  | inl k => inl k
  | inr b => inr (Some b)
  end.

Definition validate_ProductQuery (q : ProductQuery.t) : checked ProductFilters.t :=
  let category :=
    check_field "query" "category" (Some None)
      (optional member_of_ProductCategory) (ProductQuery.category q) in
  let min_price :=
    check_field "query" "min_price" (Some None) (optional ge_0)
      (ProductQuery.min_price q) in
  let max_price :=
    check_field "query" "max_price" (Some None) (optional ge_0)
      (ProductQuery.max_price q) in
  let in_stock :=
    check_field "query" "in_stock" (Some None) (optional unconstrained)
      (ProductQuery.in_stock q) in
  match category, min_price, max_price, in_stock with
  | inr c, inr lo, inr hi, inr s => inr (ProductFilters.Build c lo hi s)
  | _, _, _, _ =>
      inl (errors_of category ++ errors_of min_price ++ errors_of max_price
           ++ errors_of in_stock)%list
  end.

(** ** The process state and the handler monad *)

Record world := World {
  products_db : dict Product.t;
  tasks_db : dict Task.t;
  uuid_calls : nat;
  clock_calls : nat
}.

Definition initial_world : world := World [] [] 0 0.

Inductive exn :=
| HTTP (e : HTTPException)
| KeyError (k : string).

Inductive outcome (A : Type) :=
| Returned (a : A)
| Raised (e : exn).
Arguments Returned {A} a.
Arguments Raised {A} e.

Definition handler (A : Type) : Type := world -> outcome A * world.

Definition ret {A} (a : A) : handler A := fun w => (Returned a, w).

Definition raise {A} (e : exn) : handler A := fun w => (Raised e, w).

Definition bind {A B} (m : handler A) (k : A -> handler B) : handler B :=
  fun w =>
    match m w with
    | (Returned a, w') => k a w'
    | (Raised e, w') => (Raised e, w')
    end.

Declare Scope handler_scope.
Delimit Scope handler_scope with handler.
Notation "x <- m ;; k" := (bind m (fun x => k))
  (at level 100, m at next level, right associativity) : handler_scope.
Notation "m ;; k" := (bind m (fun _ => k))
  (at level 100, right associativity) : handler_scope.
Local Open Scope handler_scope.

Fixpoint for_each {A} (xs : list A) (body : A -> handler unit) : handler unit :=
  match xs with
  | [] => ret tt
  | x :: xs' => body x ;; for_each xs' body
  end.

(** Reads and writes of the two global dictionaries. *)

Definition products_db_read : handler (dict Product.t) :=
  fun w => (Returned (products_db w), w).

Definition products_db_getitem (k : string) : handler Product.t :=
  fun w =>
    match dict_get k (products_db w) with
    | Some p => (Returned p, w)
    | None => (Raised (KeyError k), w)
    end.

Definition products_db_setitem (k : string) (p : Product.t) : handler unit :=
  fun w =>
    (Returned tt,
     World (dict_set k p (products_db w)) (tasks_db w) (uuid_calls w) (clock_calls w)).

Definition products_db_delitem (k : string) : handler unit :=
  fun w =>
    if dict_contains k (products_db w)
    then (Returned tt,
          World (dict_del k (products_db w)) (tasks_db w) (uuid_calls w) (clock_calls w))
    else (Raised (KeyError k), w).

Definition tasks_db_setitem (k : string) (t : Task.t) : handler unit :=
  fun w =>
    (Returned tt,
     World (products_db w) (dict_set k t (tasks_db w)) (uuid_calls w) (clock_calls w)).

Definition not_found : HTTPException :=
  {| status_code := 404;
     detail := {| error := "Product not found"; code := 404 |} |}.

(** ** The schema patch *)

(** [isinstance(v, (int, float))]: [bool] is a subclass of [int], so
    [True] and [False] pass the test too. *)
Definition is_int_or_float (v : json) : bool :=
  match v with
  | JBool _ | JInt _ | JFloat _ => true
  | _ => false
  end.

(** Truth value of a Python value, as tested by [if v:]. *)
Definition truthy (v : json) : bool :=
  match v with
  | JNone => false
  | JBool b => b
  | JInt n => negb (n =? 0)
  | JFloat x => negb (SFeqb x float_zero)
  | JStr s => negb (String.eqb s "")
  | JList items => match items with [] => false | _ :: _ => true end
  | JDict entries => match entries with [] => false | _ :: _ => true end
  end.

(** One of the two [if] blocks of [patch_exclusive_min_max]: when the
    key [exclusive] holds a number, the key [plain] takes that number and
    [exclusive] becomes [True]. *)
Definition patch_bound (exclusive plain : string) (schema : dict json) : dict json :=
  match dict_get exclusive schema with
  | Some v =>
      if is_int_or_float v
      then dict_set exclusive (JBool true) (dict_set plain v schema)
      else schema
  | None => schema
  end.

(** A loop whose body may fail: the results in order, or no result. *)
Fixpoint for_all {A B} (f : A -> option B) (xs : list A) : option (list B) :=
  match xs with
  | [] => Some []
  | x :: xs' =>
      match f x with
      | Some y =>
          match for_all f xs' with
          | Some ys => Some (y :: ys)
          | None => None
          end
      | None => None
      end
  end.

(** [patch_exclusive_min_max(schema)] rewrites the schema in place; the
    function below gives the schema once rewritten.  [fuel] bounds the
    depth of the recursive calls; [None] is a recursion that ran out of
    it. *)
Fixpoint patch_exclusive_min_max (fuel : nat) (schema : json) : option json :=
  match fuel with
  | O => None
  | S fuel' =>
      match schema with
      | JDict entries =>
          let entries := patch_bound "exclusiveMinimum" "minimum" entries in
          let entries := patch_bound "exclusiveMaximum" "maximum" entries in
          option_map JDict
            (for_all
               (fun kv =>
                  option_map (pair (fst kv))
                    (patch_exclusive_min_max fuel' (snd kv)))
               entries)
      | JList items =>
          option_map JList (for_all (patch_exclusive_min_max fuel') items)
      | _ => Some schema
      end
  end.

(** The number of containers on the longest branch of a value. *)
Fixpoint depth (v : json) : nat :=
  match v with
  | JList items => S (List.list_max (map depth items))
  | JDict entries => S (List.list_max (map (fun kv => depth (snd kv)) entries))
  | _ => 0%nat
  end.

(** The form the patch aims at: in every dict of the value, an
    [exclusiveMinimum] or [exclusiveMaximum] that is a number is
    [True]. *)
Definition bound_is_flag (exclusive : string) (entries : dict json) : bool :=
  match dict_get exclusive entries with
  | Some (JBool true) => true
  | Some v => negb (is_int_or_float v)
  | None => true
  end.

Fixpoint exclusive_bounds_are_flags (v : json) : bool :=
  match v with
  | JList items => forallb exclusive_bounds_are_flags items
  | JDict entries =>
      bound_is_flag "exclusiveMinimum" entries
      && bound_is_flag "exclusiveMaximum" entries
      && forallb (fun kv => exclusive_bounds_are_flags (snd kv)) entries
  | _ => true
  end.

(** The attribute of [app] that [custom_openapi] reads and writes. *)
Module FastAPI.
Record t := Build { openapi_schema : option json }.
End FastAPI.

(** [custom_openapi()]: [generated] is what [get_openapi(...)] returns
    when it is called.  The result is the returned schema and [app]
    after the call. *)
Definition custom_openapi (fuel : nat) (generated : json) (app : FastAPI.t)
    : option (json * FastAPI.t) :=
  let regenerate :=
    match patch_exclusive_min_max fuel generated with
    | Some openapi_schema =>
        Some (openapi_schema, FastAPI.Build (Some openapi_schema))
    | None => None
    end in
  match FastAPI.openapi_schema app with
  | Some cached => if truthy cached then Some (cached, app) else regenerate
  | None => regenerate
  end.

(** The body of the answer of [GET /test/health]. *)
Module Health.
Record t := Build { status : string; version : string; timestamp : string }.
End Health.

Section Service.

(** [uuid4 n] is the string of the [n]-th call of [uuid.uuid4()] made by
    the process, [utcnow n] the answer of the [n]-th call of
    [datetime.utcnow()]. *)
Variable uuid4 : nat -> string.
Variable utcnow : nat -> datetime.

Definition next_uuid : handler string :=
  fun w =>
    (Returned (uuid4 (uuid_calls w)),
     World (products_db w) (tasks_db w) (S (uuid_calls w)) (clock_calls w)).

Definition generate_product_id : handler string := next_uuid.

Definition generate_task_id : handler string := next_uuid.

Definition get_current_time : handler datetime :=
  fun w =>
    (Returned (utcnow (clock_calls w)),
     World (products_db w) (tasks_db w) (uuid_calls w) (S (clock_calls w))).

Definition create_task (task : TaskCreate.t) : handler Task.t :=
  task_id <- generate_task_id ;;
  let new_task := Task.Build task_id task in
  tasks_db_setitem task_id new_task ;;
  ret new_task.

Definition get_products (category : option ProductCategory)
    (min_price max_price : option float) (in_stock : option bool)
    : handler (list Product.t) :=
  db <- products_db_read ;;
  let filtered_products := dict_values db in
  let filtered_products :=
    match category with
    | Some c =>
        if ProductCategory_truthy c
        then List.filter
               (fun p => ProductCategory_eqb (ProductBase.category (Product.base p)) c)
               filtered_products
        else filtered_products
    | None => filtered_products
    end in
  let filtered_products :=
    match min_price with
    | Some lo =>
        List.filter (fun p => float_ge (ProductBase.price (Product.base p)) lo)
          filtered_products
    | None => filtered_products
    end in
  let filtered_products :=
    match max_price with
    | Some hi =>
        List.filter (fun p => float_le (ProductBase.price (Product.base p)) hi)
          filtered_products
    | None => filtered_products
    end in
  let filtered_products :=
    match in_stock with
    | Some s =>
        List.filter (fun p => Bool.eqb (ProductBase.in_stock (Product.base p)) s)
          filtered_products
    | None => filtered_products
    end in
  ret filtered_products.

Definition get_product (product_id : string) : handler Product.t :=
  db <- products_db_read ;;
  if negb (dict_contains product_id db) then raise (HTTP not_found)
  else products_db_getitem product_id.

Definition create_product (product : ProductBase.t) : handler Product.t :=
  product_id <- generate_product_id ;;
  current_time <- get_current_time ;;
  let new_product := Product.Build product_id product current_time current_time in
  products_db_setitem product_id new_product ;;
  ret new_product.

Definition update_product (product_id : string) (product_update : ProductBase.t)
    : handler Product.t :=
  db <- products_db_read ;;
  if negb (dict_contains product_id db) then raise (HTTP not_found)
  else
    current_product <- products_db_getitem product_id ;;
    now <- get_current_time ;;
    let updated_product :=
      Product.Build (Product.id current_product) product_update
        (Product.created_at current_product) now in
    products_db_setitem product_id updated_product ;;
    ret updated_product.

Definition delete_product (product_id : string) : handler unit :=
  db <- products_db_read ;;
  if negb (dict_contains product_id db) then raise (HTTP not_found)
  else products_db_delitem product_id.

(** The binary64 values of the literals [99.99], [19.99] and [24.99]. *)
Definition float_99_99 : float := S754_finite false 7036170730324623 (-46).
Definition float_19_99 : float := S754_finite false 5626684784446013 (-48).
Definition float_24_99 : float := S754_finite false 7034059667999293 (-48).

Definition example_products : list ProductBase.t :=
  [ ProductBase.Build "Wireless Headphones"
      "Noise-cancelling wireless headphones with 20h battery life"
      float_99_99 ELECTRONICS true ["wireless"; "audio"; "bluetooth"];
    ProductBase.Build "Cotton T-Shirt"
      "Comfortable 100% cotton t-shirt, available in multiple colors"
      float_19_99 CLOTHING true ["cotton"; "casual"; "summer"];
    ProductBase.Build "Organic Protein Bars"
      "Healthy protein bars made with organic ingredients"
      float_24_99 FOOD false ["organic"; "protein"; "healthy"] ].

Definition example_tasks : list TaskCreate.t :=
  [ TaskCreate.Build "Sample Task" (Some "This is an example task");
    TaskCreate.Build "Another Task" (Some "This is another example task") ].

Definition startup_event : handler unit :=
  for_each example_products (fun product_data =>
    product_id <- generate_product_id ;;
    current_time <- get_current_time ;;
    let product_obj :=
      Product.Build product_id product_data current_time current_time in
    products_db_setitem product_id product_obj) ;;
  for_each example_tasks (fun task_data =>
    task_id <- generate_task_id ;;
    let task_obj := Task.Build task_id task_data in
    tasks_db_setitem task_id task_obj).

(** ** Routes

    A route checks the declared parameters of its handler and, when one
    fails, answers 422 with the list of violations, each of which echoes
    the input it rejects.  Otherwise it runs the handler: the result is
    sent with the status of the decorator, a raised [HTTPException] with
    its own status and detail.  Every answer is written as JSON with
    [allow_nan=False]: one that holds an infinity or NaN cannot be
    written, and the answer is 500 instead, after the handler has run. *)

Inductive Payload :=
| json_product (p : Product.t)
| json_products (ps : list Product.t)
| json_task (t : Task.t)
| no_content
| json_error (d : ErrorDetail)
| json_validation (errors : list ErrorItem)
| internal_server_error.

Record Response := { status : Z; payload : Payload }.

(** The only floats of a payload are the prices of its products.  The
    strings of a payload are taken to be texts that UTF-8 can write. *)
Definition renderable (p : Payload) : bool :=
  match p with
  | json_product p => finite_float (ProductBase.price (Product.base p))
  | json_products ps =>
      forallb (fun p => finite_float (ProductBase.price (Product.base p))) ps
  | _ => true
  end.

Definition rendered (success : Z) (p : Payload) : Response :=
  if renderable p then {| status := success; payload := p |}
  else {| status := 500; payload := internal_server_error |}.

Definition respond {A} (success : Z) (render : A -> Payload) (h : handler A)
    : world -> Response * world :=
  fun w =>
    match h w with
    | (Returned a, w') => (rendered success (render a), w')
    | (Raised (HTTP e), w') => (rendered (status_code e) (json_error (detail e)), w')
    | (Raised (KeyError _), w') =>
        ({| status := 500; payload := internal_server_error |}, w')
    end.

(** The input echoed by a violation: the whole body for an absent
    field, the value sent for the field otherwise. *)
Definition echoed_input (sent : json) (e : ErrorItem) : json :=
  match kind e with
  | value_error_missing => sent
  | _ =>
      match loc e, sent with
      | [_; fname], JDict entries =>
          match dict_get fname entries with
          | Some v => v
          | None => JNone
          end
      | _, _ => sent
      end
  end.

Definition validation_response (sent : json) (errors : list ErrorItem) : Response :=
  if forallb (fun e => finite_json (echoed_input sent e)) errors
  then {| status := 422; payload := json_validation errors |}
  else {| status := 500; payload := internal_server_error |}.

Definition unprocessable (sent : json) (errors : list ErrorItem)
    : world -> Response * world :=
  fun w => (validation_response sent errors, w).

Inductive Request :=
| POST_tasks (body : TaskBody.t)
| GET_products (query : ProductQuery.t)
| GET_product (product_id : string)
| POST_products (body : ProductBody.t)
| PUT_product (product_id : string) (body : ProductBody.t)
| DELETE_product (product_id : string).

(** What the declared parameters of the route reject in a request; the
    path parameter [product_id: str] carries no constraint. *)
Definition validation_errors (r : Request) : list ErrorItem :=
  match r with
  | POST_tasks body => errors_of (validate_TaskCreate body)
  | GET_products query => errors_of (validate_ProductQuery query)
  | GET_product _ => []
  | POST_products body => errors_of (validate_ProductBase body)
  | PUT_product _ body => errors_of (validate_ProductBase body)
  | DELETE_product _ => []
  end.


Definition serve (r : Request) : world -> Response * world :=
  match r with
  | POST_tasks body =>
      match validate_TaskCreate body with
      | inl errors => unprocessable (TaskBody.sent body) errors
      | inr task => respond 201 json_task (create_task task)
      end
  | GET_products query =>
      match validate_ProductQuery query with
      | inl errors => unprocessable JNone errors
      | inr f =>
          respond 200 json_products
            (get_products (ProductFilters.category f) (ProductFilters.min_price f)
               (ProductFilters.max_price f) (ProductFilters.in_stock f))
      end
  | GET_product product_id => respond 200 json_product (get_product product_id)
  | POST_products body =>
      match validate_ProductBase body with
      | inl errors => unprocessable (ProductBody.sent body) errors
      | inr product => respond 201 json_product (create_product product)
      end
  | PUT_product product_id body =>
      match validate_ProductBase body with
      | inl errors => unprocessable (ProductBody.sent body) errors
      | inr product_update =>
          respond 200 json_product (update_product product_id product_update)
      end
  | DELETE_product product_id =>
      respond 204 (fun _ : unit => no_content) (delete_product product_id)
  end.

(** The process: the startup event, then the requests one after
    another. *)
Definition boot : world := snd (startup_event initial_world).

Fixpoint run (rs : list Request) (w : world) : list Response * world :=
  match rs with
  | [] => ([], w)
  | r :: rs' =>
      let (resp, w') := serve r w in
      let (resps, w'') := run rs' w' in
      (resp :: resps, w'')
  end.

Definition reachable (w : world) : Prop :=
  exists rs, w = snd (run rs boot).

(** The identifiers handed out for products: those of the startup
    examples, then those of the records that [create_product] returns for
    the accepted [POST /products], whatever becomes of the answer. *)
Definition created_product_id (r : Request) (w : world) : list string :=
  match r with
  | POST_products body =>
      match validate_ProductBase body with
      | inr product =>
          match create_product product w with
          | (Returned p, _) => [Product.id p]
          | (Raised _, _) => []
          end
      | inl _ => []
      end
  | _ => []
  end.

Fixpoint created_product_ids (rs : list Request) (w : world) : list string :=
  match rs with
  | [] => []
  | r :: rs' =>
      (created_product_id r w ++ created_product_ids rs' (snd (serve r w)))%list
  end.

Definition product_ids_history (rs : list Request) : list string :=
  (dict_keys (products_db boot) ++ created_product_ids rs boot)%list.




(** ** The specification's wording of the filters

    [category] equality, [price >= min_price], [price <= max_price] and
    [in_stock] equality, each one only when the filter is supplied. *)

Definition satisfies_filters (category : option ProductCategory)
    (min_price max_price : option float) (in_stock : option bool)
    (p : Product.t) : Prop :=
  (forall c, category = Some c -> ProductBase.category (Product.base p) = c)
  /\ (forall lo, min_price = Some lo ->
        float_ge (ProductBase.price (Product.base p)) lo = true)
  /\ (forall hi, max_price = Some hi ->
        float_le (ProductBase.price (Product.base p)) hi = true)
  /\ (forall s, in_stock = Some s -> ProductBase.in_stock (Product.base p) = s).

Definition satisfies_filtersb (category : option ProductCategory)
    (min_price max_price : option float) (in_stock : option bool)
    (p : Product.t) : bool :=
  match category with
  | Some c => ProductCategory_eqb (ProductBase.category (Product.base p)) c
  | None => true
  end
  && match min_price with
     | Some lo => float_ge (ProductBase.price (Product.base p)) lo
     | None => true
     end
  && match max_price with
     | Some hi => float_le (ProductBase.price (Product.base p)) hi
     | None => true
     end
  && match in_stock with
     | Some s => Bool.eqb (ProductBase.in_stock (Product.base p)) s
     | None => true
     end.

(** ** Invariants of the product store *)

(** Every record is stored under its own identifier. *)
Definition keyed_by_id (db : dict Product.t) : Prop :=
  Forall (fun kv => Product.id (snd kv) = fst kv) db.

(** Records stay stored under their own identifier, once each. *)
Definition well_keyed (w : world) : Prop :=
  keyed_by_id (products_db w) /\ NoDup (dict_keys (products_db w)).

(** Both timestamps of a record are answers the clock has already
    given, the creation one no later in the sequence of calls. *)
Definition stamped (n : nat) (p : Product.t) : Prop :=
  exists i j : nat,
    (i <= j)%nat /\ (j < n)%nat
    /\ Product.created_at p = utcnow i /\ Product.updated_at p = utcnow j.

Definition timestamps_from_clock (w : world) : Prop :=
  Forall (stamped (clock_calls w)) (dict_values (products_db w)).

(** Every identifier of [H] is an answer the generator has already
    given. *)
Definition drawn_before (n : nat) (H : list string) : Prop :=
  Forall (fun s => exists i : nat, (i < n)%nat /\ s = uuid4 i) H.

Definition history_invariant (w : world) (H : list string) : Prop :=
  NoDup H /\ sublist (dict_keys (products_db w)) H
  /\ drawn_before (uuid_calls w) H.


(** What one request can do to the process: nothing, or one of the
    four writes of the handlers.  The list holds the product identifier
    handed out, if any. *)
Inductive change (w : world) : list string -> world -> Prop :=
| unchanged : change w [] w
| product_created (product : ProductBase.t) :
    change w [uuid4 (uuid_calls w)]
      (World
         (dict_set (uuid4 (uuid_calls w))
            (Product.Build (uuid4 (uuid_calls w)) product
               (utcnow (clock_calls w)) (utcnow (clock_calls w)))
            (products_db w))
         (tasks_db w) (S (uuid_calls w)) (S (clock_calls w)))
| product_updated (product_id : string) (current_product : Product.t)
    (product_update : ProductBase.t) :
    dict_get product_id (products_db w) = Some current_product ->
    change w []
      (World
         (dict_set product_id
            (Product.Build (Product.id current_product) product_update
               (Product.created_at current_product) (utcnow (clock_calls w)))
            (products_db w))
         (tasks_db w) (uuid_calls w) (S (clock_calls w)))
| product_deleted (product_id : string) :
    dict_contains product_id (products_db w) = true ->
    change w []
      (World (dict_del product_id (products_db w)) (tasks_db w)
         (uuid_calls w) (clock_calls w))
| task_created (task : TaskCreate.t) :
    change w []
      (World (products_db w)
         (dict_set (uuid4 (uuid_calls w))
            (Task.Build (uuid4 (uuid_calls w)) task) (tasks_db w))
         (S (uuid_calls w)) (clock_calls w)).

(** ** Sample data *)

(** A generator whose answers are pairwise distinct and a clock that
    never goes back. *)
Definition sample_uuid4 (n : nat) : string := pretty n.
Definition sample_utcnow (n : nat) : datetime := 1700000000000000 + Z.of_nat n.

(** A stand-in for [isoformat]: the decimal writing of the number of
    microseconds. *)
Definition sample_isoformat (t : datetime) : string := pretty t.

(** A generator that always gives the same answer. *)
Definition stuck_uuid4 (n : nat) : string := "dup".

(** The binary64 value of [9.99]. *)
Definition float_9_99 : float := S754_finite false 5623870034678907 (-49).

(** A clock that is set back between any two readings, a generator
    that alternates between two answers. *)
Definition backward_utcnow (n : nat) : datetime := 1700000000000000 - Z.of_nat n.
Definition alternating_uuid4 (n : nat) : string := pretty (n mod 2)%nat.

(** The body [{"name": "Widget", "description": "d", "price": x,
    "category": "books"}], for a float [x]. *)
Definition widget_body_priced (x : float) : ProductBody.t :=
  ProductBody.Build
    (JDict [("name", JStr "Widget"); ("description", JStr "d");
            ("price", JFloat x); ("category", JStr "books")])
    (given "Widget") (given "d") (given x) (given "books") missing missing.

(** [{"name": "Widget", "description": "d", "price": 9.99,
      "category": "books"}] *)
Definition widget_body : ProductBody.t := widget_body_priced float_9_99.

(** The model that body is parsed into: [in_stock] and [tags] take
    their defaults. *)
Definition widget : ProductBase.t :=
  ProductBase.Build "Widget" "d" float_9_99 BOOKS true [].

(** The binary64 values of [50.0] and [200.0]. *)
Definition float_50 : float := S754_finite false 7036874417766400 (-47).
Definition float_200 : float := S754_finite false 7036874417766400 (-45).

(** [?category=electronics&min_price=50&max_price=200] *)
Definition electronics_50_200 : ProductQuery.t :=
  ProductQuery.Build (given "electronics") (given float_50) (given float_200)
    missing.

(** The same body with [price] set to [0.0], to [-Infinity], to [NaN]
    and to [Infinity]. *)
Definition free_widget_body : ProductBody.t := widget_body_priced float_zero.
Definition minus_infinity_widget_body : ProductBody.t :=
  widget_body_priced (S754_infinity true).
Definition nan_widget_body : ProductBody.t := widget_body_priced S754_nan.
Definition infinity_widget_body : ProductBody.t :=
  widget_body_priced (S754_infinity false).

(** ** The remaining routes *)

(** [datetime.isoformat()] *)
Variable isoformat : datetime -> string.

Definition health_check : handler Health.t :=
  now <- get_current_time ;;
  ret (Health.Build "healthy" "1.0.0" (isoformat now)).

Definition echo_test (data : dict json) : handler (dict json) := ret data.

(** All eight routes of the application. *)
Inductive AnyRequest :=
| api (r : Request)
| GET_test_health
| POST_test_echo (body : json).

Inductive AnyResponse :=
| api_response (resp : Response)
| health_response (h : Health.t)
| echo_response (data : dict json)
| echo_unprocessable (errors : list ErrorItem).

(** [data: Dict[str, Any] = Body(...)]: the body has to be an object; a
    [null] body counts as no body. *)
Definition validate_echo (body : json) : checked (dict json) :=
  match body with
  | JDict entries => inr entries
  | JNone => inl [{| loc := ["body"]; kind := value_error_missing |}]
  | _ => inl [{| loc := ["body"]; kind := type_error |}]
  end.

Definition serve_any (r : AnyRequest) : world -> AnyResponse * world :=
  fun w =>
    match r with
    | api r' => let (resp, w') := serve r' w in (api_response resp, w')
    | GET_test_health =>
        match health_check w with
        | (Returned h, w') => (health_response h, w')
        | (Raised _, w') =>
            (api_response {| status := 500; payload := internal_server_error |}, w')
        end
    | POST_test_echo body =>
        match validate_echo body with
        | inl errors =>
            if finite_json body then (echo_unprocessable errors, w)
            else
              (api_response {| status := 500; payload := internal_server_error |}, w)
        | inr data =>
            match echo_test data w with
            | (Returned d, w') =>
                if finite_json (JDict d) then (echo_response d, w')
                else
                  (api_response
                     {| status := 500; payload := internal_server_error |}, w')
            | (Raised _, w') =>
                (api_response {| status := 500; payload := internal_server_error |},
                 w')
            end
        end
    end.

Fixpoint run_any (rs : list AnyRequest) (w : world) : list AnyResponse * world :=
  match rs with
  | [] => ([], w)
  | r :: rs' =>
      let (resp, w') := serve_any r w in
      let (resps, w'') := run_any rs' w' in
      (resp :: resps, w'')
  end.

Definition reachable_any (w : world) : Prop :=
  exists rs, w = snd (run_any rs boot).

(** The constraints of [ProductBase] on a record: the bounds on the
    length of [name] and on [price]. *)
Definition satisfies_ProductBase (p : ProductBase.t) : bool :=
  (1 <=? String.length (ProductBase.name p))%nat
  && (String.length (ProductBase.name p) <=? 100)%nat
  && float_gt (ProductBase.price p) float_zero.

Definition all_records_valid (w : world) : Prop :=
  Forall (fun p => satisfies_ProductBase (Product.base p) = true)
    (dict_values (products_db w)).

(** The schema of the [price] field as generated, inside the schema of
    its model. *)
Definition price_schema : json :=
  JDict [("type", JStr "number"); ("exclusiveMinimum", JFloat float_zero);
         ("title", JStr "Price")].

Definition model_schema : json :=
  JDict [("title", JStr "ProductBase");
         ("properties", JDict [("price", price_schema)]);
         ("required", JList [JStr "name"; JStr "price"])].

(** * Properties *)

(** ** Dictionaries *)

Lemma dict_contains_get {V} (k : string) (d : dict V) :
  dict_contains k d = true <-> exists v, dict_get k d = Some v.
Proof.
  unfold dict_contains. destruct (dict_get k d); split; intros H; eauto.
  - discriminate.
  - destruct H as [v H]; discriminate.
Qed.

Lemma dict_contains_keys {V} (k : string) (d : dict V) :
  dict_contains k d = true <-> In k (dict_keys d).
Proof.
  unfold dict_contains. induction d as [|[k' v] d IH]; simpl.
  - split; [discriminate | tauto].
  - destruct (String.eqb_spec k' k) as [->|Hne].
    + split; auto.
    + rewrite IH. split; [tauto | intros [?|?]; [congruence | assumption]].
Qed.

Lemma dict_contains_false_keys {V} (k : string) (d : dict V) :
  dict_contains k d = false <-> ~ In k (dict_keys d).
Proof.
  rewrite <- dict_contains_keys. destruct (dict_contains k d); split; congruence.
Qed.

Lemma dict_get_set_eq {V} (k : string) (v : V) (d : dict V) :
  dict_get k (dict_set k v d) = Some v.
Proof.
  induction d as [|[k' v'] d IH]; simpl.
  - now rewrite String.eqb_refl.
  - destruct (String.eqb_spec k' k) as [->|Hne]; simpl.
    + now rewrite String.eqb_refl.
    + apply String.eqb_neq in Hne. now rewrite Hne.
Qed.

Lemma dict_get_set_ne {V} (k k' : string) (v : V) (d : dict V) :
  k' <> k -> dict_get k' (dict_set k v d) = dict_get k' d.
Proof.
  intros Hne. induction d as [|[k0 v0] d IH]; simpl.
  - destruct (String.eqb_spec k k'); congruence.
  - destruct (String.eqb_spec k0 k) as [->|Hk]; simpl.
    + destruct (String.eqb_spec k k'); congruence.
    + destruct (String.eqb_spec k0 k'); congruence.
Qed.

Lemma dict_set_present {V} (k : string) (v : V) (d : dict V) :
  dict_contains k d = true -> dict_keys (dict_set k v d) = dict_keys d.
Proof.
  unfold dict_contains. induction d as [|[k' v'] d IH]; simpl.
  - discriminate.
  - destruct (String.eqb_spec k' k) as [->|Hne]; simpl; intros H.
    + reflexivity.
    + f_equal. now apply IH.
Qed.

Lemma dict_set_absent {V} (k : string) (v : V) (d : dict V) :
  dict_contains k d = false -> dict_set k v d = (d ++ [(k, v)])%list.
Proof.
  unfold dict_contains. induction d as [|[k' v'] d IH]; simpl.
  - reflexivity.
  - destruct (String.eqb_spec k' k) as [->|Hne]; simpl; intros H.
    + discriminate.
    + f_equal. now apply IH.
Qed.

Lemma dict_del_sublist {V} (k : string) (d : dict V) :
  sublist (dict_del k d) d.
Proof.
  induction d as [|[k' v'] d IH]; simpl.
  - constructor.
  - destruct (String.eqb k' k).
    + apply sublist_cons. reflexivity.
    + now apply sublist_skip.
Qed.

Lemma dict_del_get_eq {V} (k : string) (d : dict V) :
  NoDup (dict_keys d) -> dict_get k (dict_del k d) = None.
Proof.
  induction d as [|[k' v'] d IH]; simpl; intros Hnd.
  - reflexivity.
  - apply NoDup_cons in Hnd as [Hnotin Hnd].
    destruct (String.eqb_spec k' k) as [->|Hne]; simpl.
    + destruct (dict_get k d) eqn:E; [|reflexivity].
      exfalso. apply Hnotin. apply list_elem_of_In.
      apply (dict_contains_keys k d). apply dict_contains_get. eauto.
    + apply String.eqb_neq in Hne. rewrite Hne. now apply IH.
Qed.

Lemma dict_get_values {V} (k : string) (v : V) (d : dict V) :
  dict_get k d = Some v -> In (k, v) d.
Proof.
  induction d as [|[k' v'] d IH]; simpl.
  - discriminate.
  - destruct (String.eqb_spec k' k) as [->|Hne].
    + intros [= ->]. now left.
    + intros H. right. now apply IH.
Qed.

Lemma dict_set_Forall {V} (P : string * V -> Prop) (k : string) (v : V) (d : dict V) :
  P (k, v) -> Forall P d -> Forall P (dict_set k v d).
Proof.
  intros Hv. induction d as [|[k' v'] d IH]; simpl; intros Hd.
  - repeat constructor. exact Hv.
  - apply Forall_cons in Hd as [Hhd Htl].
    destruct (String.eqb_spec k' k) as [->|Hne]; constructor; auto.
Qed.

Lemma dict_set_NoDup {V} (k : string) (v : V) (d : dict V) :
  NoDup (dict_keys d) -> NoDup (dict_keys (dict_set k v d)).
Proof.
  intros Hnd. destruct (dict_contains k d) eqn:E.
  - now rewrite dict_set_present.
  - rewrite dict_set_absent by assumption. unfold dict_keys.
    rewrite map_app. simpl. apply NoDup_app. split; [exact Hnd|]. split.
    + intros x Hx Hx'. apply list_elem_of_In in Hx'. simpl in Hx'.
      destruct Hx' as [<-|[]]. apply dict_contains_false_keys in E.
      apply E. now apply list_elem_of_In.
    + apply NoDup_singleton.
Qed.

(** ** Listing *)

Lemma ProductCategory_eqb_eq (a b : ProductCategory) :
  ProductCategory_eqb a b = true <-> a = b.
Proof. destruct a, b; simpl; split; congruence. Qed.

(** No member of the enumeration has the empty string as its value, so
    the test [if category:] only asks whether the filter was supplied. *)
Lemma ProductCategory_always_truthy (c : ProductCategory) :
  ProductCategory_truthy c = true.
Proof. destruct c; reflexivity. Qed.

Lemma filter_filter_andb {A} (f g : A -> bool) (l : list A) :
  List.filter g (List.filter f l) = List.filter (fun x => f x && g x) l.
Proof.
  induction l as [|x l IH]; simpl; [reflexivity|].
  destruct (f x); simpl; [destruct (g x)|]; now rewrite IH.
Qed.

Lemma filter_true {A} (l : list A) : List.filter (fun _ => true) l = l.
Proof. induction l as [|x l IH]; simpl; congruence. Qed.

Lemma filter_bool_sublist {A} (f : A -> bool) (l : list A) :
  sublist (List.filter f l) l.
Proof.
  induction l as [|x l IH]; simpl.
  - constructor.
  - destruct (f x); [now apply sublist_skip | now apply sublist_cons].
Qed.

Lemma satisfies_filtersb_spec category min_price max_price in_stock p :
  satisfies_filtersb category min_price max_price in_stock p = true
  <-> satisfies_filters category min_price max_price in_stock p.
Proof.
  unfold satisfies_filtersb, satisfies_filters.
  rewrite !andb_true_iff. split.
  - intros [[[Hc Hlo] Hhi] Hs]. repeat split.
    + intros c ->. now apply ProductCategory_eqb_eq.
    + now intros lo ->.
    + now intros hi ->.
    + intros s ->. now apply Bool.eqb_prop.
  - intros (Hc & Hlo & Hhi & Hs). repeat split.
    + destruct category as [c|]; [|reflexivity].
      apply ProductCategory_eqb_eq. now apply Hc.
    + destruct min_price as [lo|]; [|reflexivity]. now apply Hlo.
    + destruct max_price as [hi|]; [|reflexivity]. now apply Hhi.
    + destruct in_stock as [s|]; [|reflexivity].
      rewrite (Hs s eq_refl). apply Bool.eqb_reflx.
Qed.

Lemma get_products_filter category min_price max_price in_stock w :
  get_products category min_price max_price in_stock w
  = (Returned
       (List.filter (satisfies_filtersb category min_price max_price in_stock)
          (dict_values (products_db w))), w).
Proof.
  unfold get_products, bind, products_db_read, ret, satisfies_filtersb.
  f_equal. f_equal.
  destruct category as [c|]; [rewrite ProductCategory_always_truthy|];
    destruct min_price as [lo|]; destruct max_price as [hi|];
    destruct in_stock as [s|];
    rewrite ?filter_filter_andb; simpl;
    try (rewrite filter_true; reflexivity);
    apply List.filter_ext; intros p;
    rewrite ?andb_assoc, ?andb_true_r; reflexivity.
Qed.

(** ** Validation *)

Lemma check_field_errors {A B} place fname default
    (constraint : A -> ErrorKind + B) (f : field A) (es : list ErrorItem) :
  check_field place fname default constraint f = inl es ->
  exists k, es = [{| loc := [place; fname]; kind := k |}].
Proof.
  unfold check_field. destruct f as [| |a].
  - destruct default; [discriminate|]. intros [= <-]. eauto.
  - intros [= <-]. eauto.
  - destruct (constraint a); [|discriminate]. intros [= <-]. eauto.
Qed.

Lemma float_le_zero_not_gt (x : float) :
  float_le x float_zero = true -> float_gt x float_zero = false.
Proof.
  unfold float_le, float_gt, float_zero, SFleb, SFltb.
  destruct x as [s|s| |s m e]; simpl; try destruct s; simpl; congruence.
Qed.

Lemma validate_ProductBase_price (b : ProductBody.t) (x : float) :
  ProductBody.price b = given x ->
  float_le x float_zero = true ->
  exists es,
    validate_ProductBase b = inl es
    /\ In {| loc := ["body"; "price"]; kind := not_gt |} es.
Proof.
  intros Hp Hx.
  assert (Hc : check_field "body" "price" None gt_0 (given x)
               = inl [{| loc := ["body"; "price"]; kind := not_gt |}]).
  { unfold check_field, gt_0. now rewrite (float_le_zero_not_gt x Hx). }
  unfold validate_ProductBase. rewrite Hp, Hc.
  destruct (check_field "body" "name" None length_1_100 (ProductBody.name b));
    destruct (check_field "body" "description" None unconstrained
                (ProductBody.description b));
    destruct (check_field "body" "category" None member_of_ProductCategory
                (ProductBody.category b));
    destruct (check_field "body" "in_stock" (Some true) unconstrained
                (ProductBody.in_stock b));
    destruct (check_field "body" "tags" (Some []) unconstrained
                (ProductBody.tags b));
    eexists; (split; [reflexivity|]); simpl;
    rewrite ?in_app_iff; simpl; tauto.
Qed.

(** The errors of a rejected body all lie in the body. *)
Lemma validate_ProductBase_locs (b : ProductBody.t) (e : ErrorItem) :
  In e (errors_of (validate_ProductBase b)) ->
  exists fname, loc e = ["body"; fname].
Proof.
  unfold validate_ProductBase.
  destruct (check_field "body" "name" None length_1_100 (ProductBody.name b))
    as [e1|] eqn:E1;
    destruct (check_field "body" "description" None unconstrained
                (ProductBody.description b)) as [e2|] eqn:E2;
    destruct (check_field "body" "price" None gt_0 (ProductBody.price b))
      as [e3|] eqn:E3;
    destruct (check_field "body" "category" None member_of_ProductCategory
                (ProductBody.category b)) as [e4|] eqn:E4;
    destruct (check_field "body" "in_stock" (Some true) unconstrained
                (ProductBody.in_stock b)) as [e5|] eqn:E5;
    destruct (check_field "body" "tags" (Some []) unconstrained
                (ProductBody.tags b)) as [e6|] eqn:E6;
    simpl; rewrite ?in_app_iff; simpl;
    try (apply check_field_errors in E1 as [? ->]);
    try (apply check_field_errors in E2 as [? ->]);
    try (apply check_field_errors in E3 as [? ->]);
    try (apply check_field_errors in E4 as [? ->]);
    try (apply check_field_errors in E5 as [? ->]);
    try (apply check_field_errors in E6 as [? ->]);
    simpl; intros H; decompose [or] H; subst; simpl; eauto; contradiction.
Qed.

(** ** The handlers *)

Lemma get_product_absent product_id w :
  dict_contains product_id (products_db w) = false ->
  get_product product_id w = (Raised (HTTP not_found), w).
Proof.
  intros H. unfold get_product, bind, products_db_read. now rewrite H.
Qed.

Lemma get_product_present product_id p w :
  dict_get product_id (products_db w) = Some p ->
  get_product product_id w = (Returned p, w).
Proof.
  intros H. unfold get_product, bind, products_db_read, products_db_getitem,
    dict_contains.
  rewrite H. simpl. now rewrite H.
Qed.

Lemma create_product_returns product w :
  create_product product w
  = (Returned
       (Product.Build (uuid4 (uuid_calls w)) product
          (utcnow (clock_calls w)) (utcnow (clock_calls w))),
     World
       (dict_set (uuid4 (uuid_calls w))
          (Product.Build (uuid4 (uuid_calls w)) product
             (utcnow (clock_calls w)) (utcnow (clock_calls w)))
          (products_db w))
       (tasks_db w) (S (uuid_calls w)) (S (clock_calls w))).
Proof. reflexivity. Qed.

Lemma update_product_absent product_id product_update w :
  dict_contains product_id (products_db w) = false ->
  update_product product_id product_update w = (Raised (HTTP not_found), w).
Proof.
  intros H. unfold update_product, bind, products_db_read. now rewrite H.
Qed.

Lemma update_product_present product_id product_update current_product w :
  dict_get product_id (products_db w) = Some current_product ->
  update_product product_id product_update w
  = (Returned
       (Product.Build (Product.id current_product) product_update
          (Product.created_at current_product) (utcnow (clock_calls w))),
     World
       (dict_set product_id
          (Product.Build (Product.id current_product) product_update
             (Product.created_at current_product) (utcnow (clock_calls w)))
          (products_db w))
       (tasks_db w) (uuid_calls w) (S (clock_calls w))).
Proof.
  intros H. unfold update_product, bind, products_db_read, products_db_getitem,
    dict_contains.
  rewrite H. simpl. now rewrite H.
Qed.

Lemma delete_product_absent product_id w :
  dict_contains product_id (products_db w) = false ->
  delete_product product_id w = (Raised (HTTP not_found), w).
Proof.
  intros H. unfold delete_product, bind, products_db_read. now rewrite H.
Qed.

Lemma delete_product_present product_id w :
  dict_contains product_id (products_db w) = true ->
  delete_product product_id w
  = (Returned tt,
     World (dict_del product_id (products_db w)) (tasks_db w)
       (uuid_calls w) (clock_calls w)).
Proof.
  intros H. unfold delete_product, bind, products_db_read, products_db_delitem.
  rewrite H. simpl. now rewrite H.
Qed.


(** ** The routes, case by case *)

Lemma serve_GET_product_absent product_id w :
  dict_contains product_id (products_db w) = false ->
  serve (GET_product product_id) w
  = ({| status := 404; payload := json_error (detail not_found) |}, w).
Proof.
  intros H. unfold serve, respond. now rewrite (get_product_absent _ _ H).
Qed.

Lemma serve_GET_product_present product_id p w :
  dict_get product_id (products_db w) = Some p ->
  serve (GET_product product_id) w = (rendered 200 (json_product p), w).
Proof.
  intros H. unfold serve, respond. now rewrite (get_product_present _ _ _ H).
Qed.

Lemma serve_DELETE_product_absent product_id w :
  dict_contains product_id (products_db w) = false ->
  serve (DELETE_product product_id) w
  = ({| status := 404; payload := json_error (detail not_found) |}, w).
Proof.
  intros H. unfold serve, respond. now rewrite (delete_product_absent _ _ H).
Qed.

Lemma serve_DELETE_product_present product_id w :
  dict_contains product_id (products_db w) = true ->
  serve (DELETE_product product_id) w
  = ({| status := 204; payload := no_content |},
     World (dict_del product_id (products_db w)) (tasks_db w)
       (uuid_calls w) (clock_calls w)).
Proof.
  intros H. unfold serve, respond. now rewrite (delete_product_present _ _ H).
Qed.

Lemma serve_POST_products_valid body product w :
  validate_ProductBase body = inr product ->
  serve (POST_products body) w
  = (rendered 201
       (json_product
          (Product.Build (uuid4 (uuid_calls w)) product
             (utcnow (clock_calls w)) (utcnow (clock_calls w)))),
     World
       (dict_set (uuid4 (uuid_calls w))
          (Product.Build (uuid4 (uuid_calls w)) product
             (utcnow (clock_calls w)) (utcnow (clock_calls w)))
          (products_db w))
       (tasks_db w) (S (uuid_calls w)) (S (clock_calls w))).
Proof. intros H. unfold serve. now rewrite H. Qed.

Lemma serve_PUT_product_absent product_id body product_update w :
  validate_ProductBase body = inr product_update ->
  dict_contains product_id (products_db w) = false ->
  serve (PUT_product product_id body) w
  = ({| status := 404; payload := json_error (detail not_found) |}, w).
Proof.
  intros Hv H. unfold serve. rewrite Hv.
  unfold respond. now rewrite (update_product_absent _ _ _ H).
Qed.

Lemma serve_PUT_product_present product_id body product_update current_product w :
  validate_ProductBase body = inr product_update ->
  dict_get product_id (products_db w) = Some current_product ->
  serve (PUT_product product_id body) w
  = (rendered 200
       (json_product
          (Product.Build (Product.id current_product) product_update
             (Product.created_at current_product) (utcnow (clock_calls w)))),
     World
       (dict_set product_id
          (Product.Build (Product.id current_product) product_update
             (Product.created_at current_product) (utcnow (clock_calls w)))
          (products_db w))
       (tasks_db w) (uuid_calls w) (S (clock_calls w))).
Proof.
  intros Hv H. unfold serve. rewrite Hv.
  unfold respond. now rewrite (update_product_present _ _ _ _ H).
Qed.

Lemma serve_POST_tasks_valid body task w :
  validate_TaskCreate body = inr task ->
  serve (POST_tasks body) w
  = ({| status := 201;
        payload := json_task (Task.Build (uuid4 (uuid_calls w)) task) |},
     World (products_db w)
       (dict_set (uuid4 (uuid_calls w))
          (Task.Build (uuid4 (uuid_calls w)) task) (tasks_db w))
       (S (uuid_calls w)) (clock_calls w)).
Proof. intros H. unfold serve. now rewrite H. Qed.

Lemma serve_GET_products_valid query f w :
  validate_ProductQuery query = inr f ->
  serve (GET_products query) w
  = (rendered 200
       (json_products
          (List.filter
             (satisfies_filtersb (ProductFilters.category f)
                (ProductFilters.min_price f) (ProductFilters.max_price f)
                (ProductFilters.in_stock f))
             (dict_values (products_db w)))), w).
Proof.
  intros H. unfold serve. rewrite H. unfold respond.
  now rewrite get_products_filter.
Qed.


Lemma finite_json_get (entries : dict json) (k : string) (v : json) :
  finite_json (JDict entries) = true ->
  dict_get k entries = Some v -> finite_json v = true.
Proof.
  simpl. intros HF Hget. apply dict_get_values in Hget.
  rewrite forallb_forall in HF. exact (HF _ Hget).
Qed.

(** A body that holds no infinity and no NaN can be echoed whatever is
    rejected in it. *)
Lemma validation_response_finite (sent : json) (errors : list ErrorItem) :
  finite_json sent = true ->
  validation_response sent errors
  = {| status := 422; payload := json_validation errors |}.
Proof.
  intros HF. unfold validation_response.
  replace (forallb (fun e => finite_json (echoed_input sent e)) errors) with true;
    [reflexivity|].
  symmetry. apply forallb_forall. intros e _. unfold echoed_input.
  destruct (kind e); try exact HF;
    destruct (loc e) as [|a [|fname [|b l]]]; try exact HF;
    destruct sent as [| | | | | |entries]; try exact HF;
    destruct (dict_get fname entries) as [v|] eqn:E; try reflexivity;
    exact (finite_json_get _ _ _ HF E).
Qed.

Lemma dict_contains_cases {V} (k : string) (d : dict V) :
  dict_contains k d = false \/ exists v, dict_get k d = Some v.
Proof.
  unfold dict_contains. destruct (dict_get k d); eauto.
Qed.

(** Whatever the request, the process changes in one of the five ways
    of [change]. *)
Lemma serve_change r w :
  change w (created_product_id r w) (snd (serve r w)).
Proof.
  destruct r as [body|query|product_id|body|product_id body|product_id].
  - destruct (validate_TaskCreate body) as [es|task] eqn:E.
    + unfold serve. rewrite E. constructor.
    + rewrite (serve_POST_tasks_valid _ _ _ E). apply task_created.
  - destruct (validate_ProductQuery query) as [es|f] eqn:E.
    + unfold serve. rewrite E. constructor.
    + rewrite (serve_GET_products_valid _ _ _ E). constructor.
  - destruct (dict_contains_cases product_id (products_db w)) as [H|[p H]].
    + rewrite (serve_GET_product_absent _ _ H). constructor.
    + rewrite (serve_GET_product_present _ _ _ H). constructor.
  - unfold created_product_id.
    destruct (validate_ProductBase body) as [es|product] eqn:E.
    + unfold serve. rewrite E. constructor.
    + rewrite (serve_POST_products_valid _ _ _ E). apply product_created.
  - destruct (validate_ProductBase body) as [es|product_update] eqn:E.
    + unfold serve. rewrite E. constructor.
    + destruct (dict_contains_cases product_id (products_db w)) as [H|[p H]].
      * rewrite (serve_PUT_product_absent _ _ _ _ E H). constructor.
      * rewrite (serve_PUT_product_present _ _ _ _ _ E H).
        now apply product_updated.
  - destruct (dict_contains product_id (products_db w)) eqn:H.
    + rewrite (serve_DELETE_product_present _ _ H). now apply product_deleted.
    + rewrite (serve_DELETE_product_absent _ _ H). constructor.
Qed.

(** ** Invariants *)

Lemma sublist_map {A B} (f : A -> B) (l1 l2 : list A) :
  sublist l1 l2 -> sublist (map f l1) (map f l2).
Proof.
  induction 1; simpl; [constructor | now apply sublist_skip | now apply sublist_cons].
Qed.

Lemma sublist_Forall_l {A} (P : A -> Prop) (l1 l2 : list A) :
  sublist l1 l2 -> Forall P l2 -> Forall P l1.
Proof.
  induction 1; intros HF; [constructor | |].
  - apply Forall_cons in HF as [? ?]. constructor; auto.
  - apply Forall_cons in HF as [? ?]. auto.
Qed.

Lemma stamped_later (n m : nat) (p : Product.t) :
  (n <= m)%nat -> stamped n p -> stamped m p.
Proof.
  intros Hnm (i & j & Hij & Hj & Hc & Hu). exists i, j. repeat split; auto; lia.
Qed.

Lemma dict_values_Forall {V} (P : V -> Prop) (d : dict V) :
  Forall P (dict_values d) <-> Forall (fun kv => P (snd kv)) d.
Proof. unfold dict_values. apply List.Forall_map. Qed.

Lemma change_well_keyed w ids w' :
  change w ids w' -> well_keyed w -> well_keyed w'.
Proof.
  unfold well_keyed, keyed_by_id.
  intros Hc [Hk Hn]. destruct Hc as [|product|k cur u Hget|k Hin|task]; simpl.
  - now split.
  - split; [now apply dict_set_Forall | now apply dict_set_NoDup].
  - split; [|now apply dict_set_NoDup].
    apply dict_set_Forall; [|assumption]. simpl.
    apply dict_get_values in Hget.
    rewrite List.Forall_forall in Hk. exact (Hk _ Hget).
  - split.
    + eapply sublist_Forall_l; [apply dict_del_sublist | assumption].
    + eapply sublist_NoDup; [exact Hn|].
      unfold dict_keys. apply sublist_map, dict_del_sublist.
  - now split.
Qed.

Lemma change_timestamps w ids w' :
  change w ids w' -> timestamps_from_clock w -> timestamps_from_clock w'.
Proof.
  unfold timestamps_from_clock. rewrite !dict_values_Forall.
  intros Hc Ht. destruct Hc as [|product|k cur u Hget|k Hin|task]; simpl.
  - assumption.
  - apply dict_set_Forall; simpl.
    + exists (clock_calls w), (clock_calls w). repeat split; lia.
    + eapply Forall_impl; [exact Ht|]. intros kv. simpl.
      apply stamped_later. lia.
  - apply dict_get_values in Hget.
    rewrite List.Forall_forall in Ht. pose proof (Ht _ Hget) as Hcur.
    simpl in Hcur. destruct Hcur as (i & j & Hij & Hj & Hcr & Hup).
    apply dict_set_Forall; simpl.
    + exists i, (clock_calls w). repeat split; auto; lia.
    + apply List.Forall_forall. intros kv Hkv.
      eapply stamped_later; [|exact (Ht _ Hkv)]. lia.
  - eapply sublist_Forall_l; [apply dict_del_sublist | assumption].
  - assumption.
Qed.

Lemma drawn_before_later (n m : nat) (H : list string) :
  (n <= m)%nat -> drawn_before n H -> drawn_before m H.
Proof.
  intros Hnm. unfold drawn_before. intros HF.
  eapply Forall_impl; [exact HF|].
  intros s (i & Hi & ->). exists i. split; [lia | reflexivity].
Qed.

Section Distinct_identifiers.

(** The contract of [uuid.uuid4()]: no answer is given twice. *)
Hypothesis uuid4_distinct : forall i j : nat, uuid4 i = uuid4 j -> i = j.

Lemma drawn_before_fresh (n : nat) (H : list string) :
  drawn_before n H -> ~ In (uuid4 n) H.
Proof.
  unfold drawn_before. rewrite List.Forall_forall. intros HF Hin.
  destruct (HF _ Hin) as (i & Hi & Heq).
  apply uuid4_distinct in Heq. lia.
Qed.

Lemma change_history w ids w' (H : list string) :
  change w ids w' -> history_invariant w H -> history_invariant w' (H ++ ids).
Proof.
  unfold history_invariant.
  intros Hc (Hnd & Hsub & Hdr).
  destruct Hc as [|product|k cur u Hget|k Hin|task]; simpl;
    rewrite ?app_nil_r.
  - auto.
  - pose proof (drawn_before_fresh _ _ Hdr) as Hfresh.
    assert (Habs : dict_contains (uuid4 (uuid_calls w)) (products_db w) = false).
    { apply dict_contains_false_keys. intros Hin. apply Hfresh.
      apply list_elem_of_In. eapply elem_of_sublist; [|exact Hsub].
      now apply list_elem_of_In. }
    rewrite (dict_set_absent _ _ _ Habs). unfold dict_keys. rewrite map_app.
    simpl. repeat split.
    + apply NoDup_app. split; [exact Hnd|]. split; [|apply NoDup_singleton].
      intros x Hx Hx'. apply list_elem_of_In in Hx'. simpl in Hx'.
      destruct Hx' as [<-|[]]. apply Hfresh. now apply list_elem_of_In.
    + apply sublist_app; [exact Hsub | reflexivity].
    + unfold drawn_before. apply Forall_app. split.
      * apply (drawn_before_later (uuid_calls w)); [lia | exact Hdr].
      * repeat constructor. exists (uuid_calls w). split; [lia | reflexivity].
  - repeat split; auto.
    rewrite dict_set_present; [exact Hsub|].
    apply dict_contains_get. eauto.
  - repeat split; auto.
    etransitivity; [|exact Hsub]. apply sublist_map, dict_del_sublist.
  - repeat split; auto.
    apply (drawn_before_later (uuid_calls w)); [lia | exact Hdr].
Qed.

End Distinct_identifiers.

(** ** Runs *)

Lemma run_cons r rs w :
  run (r :: rs) w
  = (fst (serve r w) :: fst (run rs (snd (serve r w))),
     snd (run rs (snd (serve r w)))).
Proof.
  simpl. destruct (serve r w) as [resp w']. simpl.
  now destruct (run rs w') as [resps w''].
Qed.

Lemma run_preserves (P : world -> Prop) :
  (forall w ids w', change w ids w' -> P w -> P w') ->
  forall rs w, P w -> P (snd (run rs w)).
Proof.
  intros Hstep rs. induction rs as [|r rs IH]; intros w HP.
  - exact HP.
  - rewrite run_cons. simpl. apply IH.
    eapply Hstep; [apply serve_change | exact HP].
Qed.

Lemma run_history :
  (forall i j : nat, uuid4 i = uuid4 j -> i = j) ->
  forall rs w H,
    history_invariant w H ->
    history_invariant (snd (run rs w)) (H ++ created_product_ids rs w).
Proof.
  intros Hinj rs. induction rs as [|r rs IH]; intros w H HI.
  - simpl. now rewrite app_nil_r.
  - rewrite run_cons. cbn [snd created_product_ids]. rewrite app_assoc. apply IH.
    eapply (change_history Hinj); [apply serve_change | exact HI].
Qed.

(** The startup event is five writes of the same kinds. *)
Lemma boot_changes (P : world -> list string -> Prop) :
  P initial_world [] ->
  (forall w H ids w', change w ids w' -> P w H -> P w' (H ++ ids)%list) ->
  P boot [uuid4 0%nat; uuid4 1%nat; uuid4 2%nat].
Proof.
  intros H0 Hstep.
  pose proof (Hstep _ _ _ _ (product_created initial_world
    (ProductBase.Build "Wireless Headphones"
      "Noise-cancelling wireless headphones with 20h battery life"
      float_99_99 ELECTRONICS true ["wireless"; "audio"; "bluetooth"])) H0) as H1.
  pose proof (Hstep _ _ _ _ (product_created _
    (ProductBase.Build "Cotton T-Shirt"
      "Comfortable 100% cotton t-shirt, available in multiple colors"
      float_19_99 CLOTHING true ["cotton"; "casual"; "summer"])) H1) as H2.
  pose proof (Hstep _ _ _ _ (product_created _
    (ProductBase.Build "Organic Protein Bars"
      "Healthy protein bars made with organic ingredients"
      float_24_99 FOOD false ["organic"; "protein"; "healthy"])) H2) as H3.
  pose proof (Hstep _ _ _ _ (task_created _
    (TaskCreate.Build "Sample Task" (Some "This is an example task"))) H3) as H4.
  pose proof (Hstep _ _ _ _ (task_created _
    (TaskCreate.Build "Another Task" (Some "This is another example task"))) H4)
    as H5.
  exact H5.
Qed.

Lemma boot_well_keyed : well_keyed boot.
Proof.
  apply (boot_changes (fun w _ => well_keyed w)).
  - split; constructor.
  - intros w _ ids w'. apply change_well_keyed.
Qed.

Lemma boot_timestamps : timestamps_from_clock boot.
Proof.
  apply (boot_changes (fun w _ => timestamps_from_clock w)).
  - constructor.
  - intros w _ ids w'. apply change_timestamps.
Qed.

Lemma boot_history :
  (forall i j : nat, uuid4 i = uuid4 j -> i = j) ->
  history_invariant boot [uuid4 0%nat; uuid4 1%nat; uuid4 2%nat].
Proof.
  intros Hinj. apply (boot_changes history_invariant).
  - repeat split; constructor.
  - intros w H ids w'. apply (change_history Hinj).
Qed.

Lemma boot_keys :
  (forall i j : nat, uuid4 i = uuid4 j -> i = j) ->
  dict_keys (products_db boot) = [uuid4 0%nat; uuid4 1%nat; uuid4 2%nat].
Proof.
  intros Hinj.
  assert (Hne : forall i j : nat, i <> j -> String.eqb (uuid4 i) (uuid4 j) = false).
  { intros i j Hij. apply String.eqb_neq. intros Heq. now apply Hij, Hinj. }
  unfold boot, startup_event. cbn.
  rewrite (Hne 0%nat 1%nat) by lia. cbn.
  rewrite (Hne 0%nat 2%nat) by lia. rewrite (Hne 1%nat 2%nat) by lia.
  reflexivity.
Qed.

Lemma reachable_well_keyed w : reachable w -> well_keyed w.
Proof.
  intros [rs ->]. apply (run_preserves well_keyed).
  - apply change_well_keyed.
  - apply boot_well_keyed.
Qed.

Lemma reachable_timestamps w : reachable w -> timestamps_from_clock w.
Proof.
  intros [rs ->]. apply (run_preserves timestamps_from_clock).
  - apply change_timestamps.
  - apply boot_timestamps.
Qed.

Lemma keyed_values_ids (db : dict Product.t) :
  keyed_by_id db -> map Product.id (dict_values db) = dict_keys db.
Proof.
  unfold keyed_by_id, dict_values, dict_keys.
  induction db as [|[k p] db IH]; intros HF; simpl; [reflexivity|].
  apply Forall_cons in HF as [Hk HF]. simpl in Hk. rewrite Hk. f_equal. auto.
Qed.

(** ** The task store *)





(** * The claims *)

(** C1. For every store and every combination of the four optional
    filters, [get_products] returns exactly the stored records that
    satisfy every supplied filter (category equality, price >= min_price,
    price <= max_price, in_stock equality), in store order and without
    touching the store; an absent filter constrains nothing, and with no
    filter at all the result is the whole collection, as long as it. *)
Theorem get_products_exactly_matching :
  forall category min_price max_price in_stock w,
    get_products category min_price max_price in_stock w
    = (Returned
         (List.filter (satisfies_filtersb category min_price max_price in_stock)
            (dict_values (products_db w))), w)
    /\ (forall p,
          satisfies_filtersb category min_price max_price in_stock p = true
          <-> satisfies_filters category min_price max_price in_stock p)
    /\ (forall p,
          In p (List.filter
                  (satisfies_filtersb category min_price max_price in_stock)
                  (dict_values (products_db w)))
          <-> In p (dict_values (products_db w))
              /\ satisfies_filters category min_price max_price in_stock p)
    /\ get_products None None None None w
       = (Returned (dict_values (products_db w)), w)
    /\ length (dict_values (products_db w)) = length (products_db w).
Proof.
  intros. split; [apply get_products_filter|].
  split; [intros p; apply satisfies_filtersb_spec|].
  split; [|split].
  - intros p. rewrite List.filter_In, satisfies_filtersb_spec. tauto.
  - rewrite get_products_filter. unfold satisfies_filtersb. simpl.
    now rewrite filter_true.
  - unfold dict_values. apply length_map.
Qed.

(** C2. For every identifier present in the store and every body that
    passes validation, [update_product] returns the updated record: its
    user-supplied fields are those of the validated body, [updated_at] is
    the time read at this call, [id] and [created_at] are those of the
    stored record; the record is stored under the same key, every other
    key keeps its record, the order of the keys and the task store are
    untouched.  The state the handler leaves is the state after the
    route. *)
Theorem update_product_replaces :
  forall product_id body product_update current_product w,
    dict_get product_id (products_db w) = Some current_product ->
    validate_ProductBase body = inr product_update ->
    exists updated w',
      update_product product_id product_update w = (Returned updated, w')
      /\ snd (serve (PUT_product product_id body) w) = w'
      /\ Product.base updated = product_update
      /\ Product.updated_at updated = utcnow (clock_calls w)
      /\ Product.id updated = Product.id current_product
      /\ Product.created_at updated = Product.created_at current_product
      /\ dict_get product_id (products_db w') = Some updated
      /\ (forall k, k <> product_id ->
            dict_get k (products_db w') = dict_get k (products_db w))
      /\ dict_keys (products_db w') = dict_keys (products_db w)
      /\ tasks_db w' = tasks_db w.
Proof.
  intros product_id body product_update current_product w Hget Hv.
  eexists. eexists. split.
  { apply (update_product_present _ _ _ _ Hget). }
  split.
  { now rewrite (serve_PUT_product_present _ _ _ _ _ Hv Hget). }
  simpl. repeat split.
  - apply dict_get_set_eq.
  - intros k Hk. now apply dict_get_set_ne.
  - apply dict_set_present. apply dict_contains_get. eauto.
Qed.

Lemma validate_ProductBase_rejects body errors :
  validate_ProductBase body = inl errors -> errors <> [].
Proof.
  unfold validate_ProductBase. intros E.
  destruct (check_field "body" "name" None length_1_100
              (ProductBody.name body)) as [e1|] eqn:E1;
    destruct (check_field "body" "description" None unconstrained
                (ProductBody.description body)) as [e2|] eqn:E2;
    destruct (check_field "body" "price" None gt_0
                (ProductBody.price body)) as [e3|] eqn:E3;
    destruct (check_field "body" "category" None member_of_ProductCategory
                (ProductBody.category body)) as [e4|] eqn:E4;
    destruct (check_field "body" "in_stock" (Some true) unconstrained
                (ProductBody.in_stock body)) as [e5|] eqn:E5;
    destruct (check_field "body" "tags" (Some []) unconstrained
                (ProductBody.tags body)) as [e6|] eqn:E6;
    try discriminate;
    try (apply check_field_errors in E1 as [? ->]);
    try (apply check_field_errors in E2 as [? ->]);
    try (apply check_field_errors in E3 as [? ->]);
    try (apply check_field_errors in E4 as [? ->]);
    try (apply check_field_errors in E5 as [? ->]);
    try (apply check_field_errors in E6 as [? ->]);
    injection E as <-; simpl; discriminate.
Qed.

(** C3, as the code has it. For an identifier that is not in the store,
    [GET] and [DELETE] answer 404 with the detail [{error, code}] and
    leave the process as it was; [PUT] does so whenever its body passes
    validation.  When its body is rejected the answer is not a 404 and
    the process is left as it was; it is the 422 with the violations of
    the body whenever the body holds no infinity and no NaN. *)
Theorem unknown_product_not_found :
  forall product_id w,
    dict_contains product_id (products_db w) = false ->
    serve (GET_product product_id) w
    = ({| status := 404;
          payload := json_error {| error := "Product not found"; code := 404 |} |},
       w)
    /\ serve (DELETE_product product_id) w
       = ({| status := 404;
             payload := json_error {| error := "Product not found"; code := 404 |} |},
          w)
    /\ (forall body,
          match validate_ProductBase body with
          | inr _ =>
              serve (PUT_product product_id body) w
              = ({| status := 404;
                    payload :=
                      json_error {| error := "Product not found"; code := 404 |} |},
                 w)
          | inl errors =>
              errors <> []
              /\ snd (serve (PUT_product product_id body) w) = w
              /\ status (fst (serve (PUT_product product_id body) w)) <> 404
              /\ (finite_json (ProductBody.sent body) = true ->
                  serve (PUT_product product_id body) w
                  = ({| status := 422; payload := json_validation errors |}, w))
          end).
Proof.
  intros product_id w Habs. split; [|split].
  - apply (serve_GET_product_absent _ _ Habs).
  - apply (serve_DELETE_product_absent _ _ Habs).
  - intros body. destruct (validate_ProductBase body) as [es|u] eqn:E.
    + split; [apply (validate_ProductBase_rejects _ _ E)|].
      unfold serve. rewrite E. unfold unprocessable. simpl.
      split; [reflexivity|]. split.
      * unfold validation_response. now destruct (forallb _ es).
      * intros HF. now rewrite (validation_response_finite _ _ HF).
    + apply (serve_PUT_product_absent _ _ _ _ E Habs).
Qed.

(** C4. For every body that passes validation, the record returned by
    [create_product] is the record returned by [get_product] on its
    identifier right after; the state the handler leaves is the state
    after [POST /products]. *)
Theorem create_then_get :
  forall body product w,
    validate_ProductBase body = inr product ->
    exists p w',
      create_product product w = (Returned p, w')
      /\ snd (serve (POST_products body) w) = w'
      /\ get_product (Product.id p) w' = (Returned p, w').
Proof.
  intros body product w Hv. eexists. eexists. split.
  - apply create_product_returns.
  - split; [now rewrite (serve_POST_products_valid _ _ _ Hv)|].
    apply get_product_present. simpl. apply dict_get_set_eq.
Qed.

(** C5, as the code has it. A created record has
    [created_at = updated_at], and an update leaves [created_at] as it
    was.  Provided the readings of the clock never decrease: in every
    state the process can reach, an update stores a record whose
    [updated_at] is no earlier than the one it replaces, and every stored
    record has [created_at <= updated_at]. *)
Theorem created_at_le_updated_at :
  (forall product w,
      exists p w',
        create_product product w = (Returned p, w')
        /\ dict_get (Product.id p) (products_db w') = Some p
        /\ Product.created_at p = Product.updated_at p)
  /\ (forall w product_id product_update current_product,
        dict_get product_id (products_db w) = Some current_product ->
        exists p w',
          update_product product_id product_update w = (Returned p, w')
          /\ dict_get product_id (products_db w') = Some p
          /\ Product.created_at p = Product.created_at current_product
          /\ Product.updated_at p = utcnow (clock_calls w))
  /\ ((forall i j : nat, (i <= j)%nat -> utcnow i <= utcnow j) ->
      (forall w product_id current_product,
          reachable w ->
          dict_get product_id (products_db w) = Some current_product ->
          Product.updated_at current_product <= utcnow (clock_calls w))
      /\ (forall w p,
            reachable w ->
            In p (dict_values (products_db w)) ->
            Product.created_at p <= Product.updated_at p)).
Proof.
  split; [|split].
  - intros product w. eexists. eexists. split; [apply create_product_returns|].
    simpl. split; [apply dict_get_set_eq | reflexivity].
  - intros w product_id product_update current_product Hget.
    eexists. eexists. split; [apply (update_product_present _ _ _ _ Hget)|].
    simpl. split; [apply dict_get_set_eq|]. split; reflexivity.
  - intros Hmono. split.
    + intros w product_id current_product Hr Hget.
      pose proof (reachable_timestamps w Hr) as Ht.
      unfold timestamps_from_clock in Ht. rewrite List.Forall_forall in Ht.
      assert (Hin : In current_product (dict_values (products_db w))).
      { unfold dict_values. apply List.in_map_iff.
        exists (product_id, current_product). split; [reflexivity|].
        now apply dict_get_values. }
      destruct (Ht _ Hin) as (i & j & Hij & Hj & Hc & Hu).
      rewrite Hu. apply Hmono. lia.
    + intros w p Hr Hin.
      pose proof (reachable_timestamps w Hr) as Ht.
      unfold timestamps_from_clock in Ht. rewrite List.Forall_forall in Ht.
      destruct (Ht _ Hin) as (i & j & Hij & Hj & Hc & Hu).
      rewrite Hc, Hu. now apply Hmono.
Qed.

Lemma run_boot_history :
  (forall i j : nat, uuid4 i = uuid4 j -> i = j) ->
  forall rs, history_invariant (snd (run rs boot)) (product_ids_history rs).
Proof.
  intros Hinj rs. unfold product_ids_history. rewrite (boot_keys Hinj).
  apply (run_history Hinj). apply (boot_history Hinj).
Qed.

Lemma history_fresh :
  (forall i j : nat, uuid4 i = uuid4 j -> i = j) ->
  forall w H,
    history_invariant w H ->
    ~ In (uuid4 (uuid_calls w)) H
    /\ dict_contains (uuid4 (uuid_calls w)) (products_db w) = false.
Proof.
  intros Hinj w H (Hnd & Hsub & Hdr).
  pose proof (drawn_before_fresh Hinj _ _ Hdr) as Hfresh.
  split; [exact Hfresh|].
  apply dict_contains_false_keys. intros Hin. apply Hfresh.
  apply list_elem_of_In. eapply elem_of_sublist; [|exact Hsub].
  now apply list_elem_of_In.
Qed.


(** C9. The path parameter [product_id] is a string without constraint:
    for every string, [GET] and [DELETE] declare nothing that could be
    rejected and never answer 422, and whatever [PUT] rejects lies in the
    body, never in the path.  An identifier that is not in the store is
    answered 404 by [GET] and [DELETE], and by [PUT] once its body is
    accepted. *)
Theorem product_id_is_unvalidated :
  forall product_id w,
    validation_errors (GET_product product_id) = []
    /\ validation_errors (DELETE_product product_id) = []
    /\ status (fst (serve (GET_product product_id) w)) <> 422
    /\ status (fst (serve (DELETE_product product_id) w)) <> 422
    /\ (forall body e,
          In e (validation_errors (PUT_product product_id body)) ->
          loc e <> ["path"; "product_id"]
          /\ exists fname, loc e = ["body"; fname])
    /\ (dict_contains product_id (products_db w) = false ->
        status (fst (serve (GET_product product_id) w)) = 404
        /\ status (fst (serve (DELETE_product product_id) w)) = 404
        /\ (forall body product_update,
              validate_ProductBase body = inr product_update ->
              status (fst (serve (PUT_product product_id body) w)) = 404)).
Proof.
  intros product_id w. split; [reflexivity|]. split; [reflexivity|].
  split; [|split; [|split]].
  - destruct (dict_contains_cases product_id (products_db w)) as [H|[p H]].
    + now rewrite (serve_GET_product_absent _ _ H).
    + rewrite (serve_GET_product_present _ _ _ H). unfold rendered.
      now destruct (renderable (json_product p)).
  - destruct (dict_contains product_id (products_db w)) eqn:H.
    + now rewrite (serve_DELETE_product_present _ _ H).
    + now rewrite (serve_DELETE_product_absent _ _ H).
  - intros body e Hin. simpl in Hin.
    destruct (validate_ProductBase_locs body e Hin) as [fname Hloc].
    split; [|eauto]. rewrite Hloc. discriminate.
  - intros Habs. split; [|split].
    + now rewrite (serve_GET_product_absent _ _ Habs).
    + now rewrite (serve_DELETE_product_absent _ _ Habs).
    + intros body u Hv. now rewrite (serve_PUT_product_absent _ _ _ _ Hv Habs).
Qed.

(** C10, as the code has it. Provided [uuid.uuid4()] never gives the
    same answer twice: along every run the unfiltered listing is the list
    of the live records in store order, their identifiers following the
    order in which they were handed out, and a created record comes last
    in it.  Whatever the generator, the listing under any filters is the
    list of the records of the unfiltered listing that satisfy them, in
    the same order. *)
Theorem listing_in_creation_order :
  (forall i j : nat, uuid4 i = uuid4 j -> i = j) ->
  forall rs,
    get_products None None None None (snd (run rs boot))
    = (Returned (dict_values (products_db (snd (run rs boot)))), snd (run rs boot))
    /\ NoDup (product_ids_history rs)
    /\ sublist (map Product.id (dict_values (products_db (snd (run rs boot)))))
         (product_ids_history rs)
    /\ (forall product,
          exists p w',
            create_product product (snd (run rs boot)) = (Returned p, w')
            /\ get_products None None None None w'
               = (Returned
                    (dict_values (products_db (snd (run rs boot))) ++ [p])%list,
                  w'))
    /\ (forall category min_price max_price in_stock w,
          get_products category min_price max_price in_stock w
          = (Returned
               (List.filter
                  (satisfies_filtersb category min_price max_price in_stock)
                  (dict_values (products_db w))), w)
          /\ sublist
               (List.filter
                  (satisfies_filtersb category min_price max_price in_stock)
                  (dict_values (products_db w)))
               (dict_values (products_db w))).
Proof.
  intros Hinj rs.
  pose proof (run_boot_history Hinj rs) as HI.
  assert (Hwk : well_keyed (snd (run rs boot))).
  { apply reachable_well_keyed. now exists rs. }
  destruct Hwk as [Hk Hn].
  assert (Hall : forall w,
            get_products None None None None w
            = (Returned (dict_values (products_db w)), w)).
  { intros w. rewrite get_products_filter. unfold satisfies_filtersb. simpl.
    now rewrite filter_true. }
  split; [apply Hall|]. split; [apply HI|]. split; [|split].
  - rewrite keyed_values_ids by exact Hk. apply HI.
  - intros product. eexists. eexists. split; [apply create_product_returns|].
    rewrite Hall. f_equal. simpl.
    destruct (history_fresh Hinj _ _ HI) as [_ Habs].
    rewrite (dict_set_absent _ _ _ Habs). unfold dict_values.
    now rewrite map_app.
  - intros category min_price max_price in_stock w.
    split; [apply get_products_filter | apply filter_bool_sublist].
Qed.

(** * Further properties of the store *)

Lemma dict_get_del_ne {V} (k k' : string) (d : dict V) :
  k' <> k -> dict_get k' (dict_del k d) = dict_get k' d.
Proof.
  intros Hne. induction d as [|[k0 v0] d IH]; simpl; [reflexivity|].
  destruct (String.eqb_spec k0 k) as [->|Hk]; simpl.
  - destruct (String.eqb_spec k k'); congruence.
  - now rewrite IH.
Qed.

Lemma dict_del_length {V} (k : string) (d : dict V) :
  dict_contains k d = true -> S (length (dict_del k d)) = length d.
Proof.
  unfold dict_contains. induction d as [|[k0 v0] d IH]; simpl; [discriminate|].
  destruct (String.eqb_spec k0 k) as [->|Hk]; simpl; intros H.
  - reflexivity.
  - f_equal. now apply IH.
Qed.

Lemma dict_set_set {V} (k : string) (v1 v2 : V) (d : dict V) :
  dict_set k v2 (dict_set k v1 d) = dict_set k v2 d.
Proof.
  induction d as [|[k0 v0] d IH]; simpl.
  - now rewrite String.eqb_refl.
  - destruct (String.eqb_spec k0 k) as [->|Hk]; simpl.
    + now rewrite String.eqb_refl.
    + apply String.eqb_neq in Hk. rewrite Hk. now rewrite IH.
Qed.

(** A step of the whole application is a step of the six routes above
    or one more reading of the clock. *)
Lemma serve_any_world r w :
  (exists ids, change w ids (snd (serve_any r w)))
  \/ snd (serve_any r w)
     = World (products_db w) (tasks_db w) (uuid_calls w) (S (clock_calls w)).
Proof.
  destruct r as [r| |body]; simpl.
  - left. exists (created_product_id r w).
    pose proof (serve_change r w) as H.
    destruct (serve r w) as [resp w']. exact H.
  - right. reflexivity.
  - left. exists [].
    destruct (validate_echo body) as [es|d]; simpl;
      [destruct (finite_json body) | destruct (forallb _ d)]; apply unchanged.
Qed.

Lemma run_any_cons r rs w :
  run_any (r :: rs) w
  = (fst (serve_any r w) :: fst (run_any rs (snd (serve_any r w))),
     snd (run_any rs (snd (serve_any r w)))).
Proof.
  simpl. destruct (serve_any r w) as [resp w']. simpl.
  now destruct (run_any rs w') as [resps w''].
Qed.

Lemma run_any_preserves (P : world -> Prop) :
  (forall w ids w', change w ids w' -> P w -> P w') ->
  (forall w,
      P w -> P (World (products_db w) (tasks_db w) (uuid_calls w) (S (clock_calls w)))) ->
  forall rs w, P w -> P (snd (run_any rs w)).
Proof.
  intros Hstep Htick rs. induction rs as [|r rs IH]; intros w HP.
  - exact HP.
  - rewrite run_any_cons. simpl. apply IH.
    destruct (serve_any_world r w) as [[ids Hc]|Heq].
    + eapply Hstep; [exact Hc | exact HP].
    + rewrite Heq. now apply Htick.
Qed.

Lemma reachable_any_well_keyed w : reachable_any w -> well_keyed w.
Proof.
  intros [rs ->]. apply (run_any_preserves well_keyed).
  - apply change_well_keyed.
  - intros w0 H. exact H.
  - apply boot_well_keyed.
Qed.

Lemma reachable_any_timestamps w : reachable_any w -> timestamps_from_clock w.
Proof.
  intros [rs ->]. apply (run_any_preserves timestamps_from_clock).
  - apply change_timestamps.
  - unfold timestamps_from_clock. intros w0 H. simpl.
    eapply Forall_impl; [exact H|]. intros p. apply stamped_later. lia.
  - apply boot_timestamps.
Qed.

(** X1. In every state the application can reach through its eight
    routes, deleting a stored product answers 204 and removes exactly
    that record: a [GET] or a second [DELETE] of the identifier then
    answers 404, every other identifier keeps its record, the store has
    one record less and the tasks are untouched. *)
Theorem delete_then_get_not_found :
  forall w product_id,
    reachable_any w ->
    dict_contains product_id (products_db w) = true ->
    exists w',
      serve (DELETE_product product_id) w
      = ({| status := 204; payload := no_content |}, w')
      /\ serve (GET_product product_id) w'
         = ({| status := 404; payload := json_error (detail not_found) |}, w')
      /\ serve (DELETE_product product_id) w'
         = ({| status := 404; payload := json_error (detail not_found) |}, w')
      /\ (forall k, k <> product_id ->
            dict_get k (products_db w') = dict_get k (products_db w))
      /\ S (length (products_db w')) = length (products_db w)
      /\ tasks_db w' = tasks_db w.
Proof.
  intros w product_id Hr Hin.
  destruct (reachable_any_well_keyed w Hr) as [_ Hnd].
  eexists. split; [apply (serve_DELETE_product_present _ _ Hin)|].
  assert (Hgone : dict_contains product_id (dict_del product_id (products_db w))
                  = false).
  { unfold dict_contains. now rewrite dict_del_get_eq. }
  split; [now apply serve_GET_product_absent|].
  split; [now apply serve_DELETE_product_absent|].
  simpl. split; [|split; [now apply dict_del_length | reflexivity]].
  intros k Hk. now apply dict_get_del_ne.
Qed.

(** X2. The guarded [products_db[product_id]] and
    [del products_db[product_id]] never raise [KeyError]: [get_product],
    [update_product] and [delete_product] either return or raise the 404
    of [HTTPException].  Whatever the request and the state, a route
    answers its success status, 404 or 422 where it has them, or 500. *)
Theorem statuses_of_routes :
  (forall product_id w,
      (exists p, get_product product_id w = (Returned p, w))
      \/ get_product product_id w = (Raised (HTTP not_found), w))
  /\ (forall product_id product_update w,
        (exists p w', update_product product_id product_update w = (Returned p, w'))
        \/ update_product product_id product_update w
           = (Raised (HTTP not_found), w))
  /\ (forall product_id w,
        (exists w', delete_product product_id w = (Returned tt, w'))
        \/ delete_product product_id w = (Raised (HTTP not_found), w))
  /\ (forall r w,
        match r with
        | POST_tasks _ | POST_products _ =>
            status (fst (serve r w)) = 201 \/ status (fst (serve r w)) = 422
            \/ status (fst (serve r w)) = 500
        | GET_products _ =>
            status (fst (serve r w)) = 200 \/ status (fst (serve r w)) = 422
            \/ status (fst (serve r w)) = 500
        | GET_product _ =>
            status (fst (serve r w)) = 200 \/ status (fst (serve r w)) = 404
            \/ status (fst (serve r w)) = 500
        | PUT_product _ _ =>
            status (fst (serve r w)) = 200 \/ status (fst (serve r w)) = 404
            \/ status (fst (serve r w)) = 422 \/ status (fst (serve r w)) = 500
        | DELETE_product _ =>
            status (fst (serve r w)) = 204 \/ status (fst (serve r w)) = 404
        end).
Proof.
  assert (Hinv : forall sent es,
             status (validation_response sent es) = 422
             \/ status (validation_response sent es) = 500).
  { intros sent es. unfold validation_response.
    destruct (forallb _ es); simpl; auto. }
  assert (Hren : forall c p,
             status (rendered c p) = c \/ status (rendered c p) = 500).
  { intros c p. unfold rendered. destruct (renderable p); simpl; auto. }
  split; [|split; [|split]].
  - intros product_id w.
    destruct (dict_contains_cases product_id (products_db w)) as [H|[p H]].
    + right. apply (get_product_absent _ _ H).
    + left. exists p. apply (get_product_present _ _ _ H).
  - intros product_id product_update w.
    destruct (dict_contains_cases product_id (products_db w)) as [H|[p H]].
    + right. apply (update_product_absent _ _ _ H).
    + left. eexists. eexists. apply (update_product_present _ _ _ _ H).
  - intros product_id w.
    destruct (dict_contains product_id (products_db w)) eqn:H.
    + left. eexists. apply (delete_product_present _ _ H).
    + right. apply (delete_product_absent _ _ H).
  - intros r w.
    destruct r as [body|query|product_id|body|product_id body|product_id].
    + destruct (validate_TaskCreate body) as [es|task] eqn:E.
      * unfold serve. rewrite E. unfold unprocessable. cbn [fst].
        match goal with |- context [validation_response ?a ?b] =>
          destruct (Hinv a b); auto end.
      * rewrite (serve_POST_tasks_valid _ _ _ E). simpl. now left.
    + destruct (validate_ProductQuery query) as [es|f] eqn:E.
      * unfold serve. rewrite E. unfold unprocessable. cbn [fst].
        match goal with |- context [validation_response ?a ?b] =>
          destruct (Hinv a b); auto end.
      * rewrite (serve_GET_products_valid _ _ _ E). cbn [fst].
        match goal with |- context [rendered 200 ?p] =>
          destruct (Hren 200 p); auto end.
    + destruct (dict_contains_cases product_id (products_db w)) as [H|[p H]].
      * rewrite (serve_GET_product_absent _ _ H). simpl. auto.
      * rewrite (serve_GET_product_present _ _ _ H). cbn [fst].
        destruct (Hren 200 (json_product p)); auto.
    + destruct (validate_ProductBase body) as [es|product] eqn:E.
      * unfold serve. rewrite E. unfold unprocessable. cbn [fst].
        match goal with |- context [validation_response ?a ?b] =>
          destruct (Hinv a b); auto end.
      * rewrite (serve_POST_products_valid _ _ _ E). cbn [fst].
        match goal with |- context [rendered 201 ?p] =>
          destruct (Hren 201 p); auto end.
    + destruct (validate_ProductBase body) as [es|product_update] eqn:E.
      * unfold serve. rewrite E. unfold unprocessable. cbn [fst].
        match goal with |- context [validation_response ?a ?b] =>
          destruct (Hinv a b); auto end.
      * destruct (dict_contains_cases product_id (products_db w)) as [H|[p H]].
        -- rewrite (serve_PUT_product_absent _ _ _ _ E H). simpl. auto.
        -- rewrite (serve_PUT_product_present _ _ _ _ _ E H). cbn [fst].
           match goal with |- context [rendered 200 ?p] =>
             destruct (Hren 200 p); auto end.
    + destruct (dict_contains product_id (products_db w)) eqn:H.
      * rewrite (serve_DELETE_product_present _ _ H). simpl. now left.
      * rewrite (serve_DELETE_product_absent _ _ H). simpl. now right.
Qed.

(** X3. The two [GET] routes and every request answered 404 or 422
    leave both stores and both generators as they were. *)
Theorem only_successful_writes_change_state :
  forall r w,
    (match r with GET_products _ | GET_product _ => True | _ => False end
     \/ status (fst (serve r w)) = 404
     \/ status (fst (serve r w)) = 422) ->
    snd (serve r w) = w.
Proof.
  assert (Hren : forall c p,
             status (rendered c p) = c \/ status (rendered c p) = 500).
  { intros c p. unfold rendered. destruct (renderable p); simpl; auto. }
  intros r w.
  destruct r as [body|query|product_id|body|product_id body|product_id].
  - destruct (validate_TaskCreate body) as [es|task] eqn:E.
    + unfold serve. now rewrite E.
    + rewrite (serve_POST_tasks_valid _ _ _ E). simpl.
      intros [[]|[H|H]]; discriminate.
  - destruct (validate_ProductQuery query) as [es|f] eqn:E.
    + unfold serve. now rewrite E.
    + now rewrite (serve_GET_products_valid _ _ _ E).
  - destruct (dict_contains_cases product_id (products_db w)) as [H|[p H]].
    + now rewrite (serve_GET_product_absent _ _ H).
    + now rewrite (serve_GET_product_present _ _ _ H).
  - destruct (validate_ProductBase body) as [es|product] eqn:E.
    + unfold serve. now rewrite E.
    + rewrite (serve_POST_products_valid _ _ _ E). cbn [fst snd].
      match goal with |- context [rendered 201 ?p] =>
        destruct (Hren 201 p) as [-> | ->] end;
        intros [[]|[H|H]]; discriminate.
  - destruct (validate_ProductBase body) as [es|product_update] eqn:E.
    + unfold serve. now rewrite E.
    + destruct (dict_contains_cases product_id (products_db w)) as [H|[p H]].
      * now rewrite (serve_PUT_product_absent _ _ _ _ E H).
      * rewrite (serve_PUT_product_present _ _ _ _ _ E H). cbn [fst snd].
        match goal with |- context [rendered 200 ?p] =>
          destruct (Hren 200 p) as [-> | ->] end;
          intros [[]|[H'|H']]; discriminate.
  - destruct (dict_contains product_id (products_db w)) eqn:H.
    + rewrite (serve_DELETE_product_present _ _ H). simpl.
      intros [[]|[H'|H']]; discriminate.
    + now rewrite (serve_DELETE_product_absent _ _ H).
Qed.

(** ** What the declared models accept *)

Lemma check_field_accepts {A B} place fname default
    (constraint : A -> ErrorKind + B) (f : field A) (v : B) :
  check_field place fname default constraint f = inr v ->
  match f with
  | missing => default = Some v
  | wrong_type => False
  | given a => constraint a = inr v
  end.
Proof.
  unfold check_field. destruct f as [| |a].
  - destruct default; [|discriminate]. now intros [= ->].
  - discriminate.
  - destruct (constraint a); [discriminate|]. now intros [= ->].
Qed.

Lemma length_1_100_accepts (s v : string) :
  length_1_100 s = inr v
  <-> v = s /\ (1 <= String.length s)%nat /\ (String.length s <= 100)%nat.
Proof.
  unfold length_1_100.
  destruct (Nat.ltb_spec (String.length s) 1);
    destruct (Nat.ltb_spec 100 (String.length s)); split;
    try discriminate; try (intros (_ & ? & ?); lia).
  - intros [= <-]. repeat split; lia.
  - now intros (-> & _ & _).
Qed.

Lemma gt_0_accepts (x v : float) :
  gt_0 x = inr v <-> v = x /\ float_gt x float_zero = true.
Proof.
  unfold gt_0. destruct (float_gt x float_zero); split.
  - now intros [= <-].
  - now intros [-> _].
  - discriminate.
  - intros [_ ?]. discriminate.
Qed.

(** X4. The strings the [category] field accepts are exactly the values
    of the five members of [ProductCategory], each read back as its own
    member. *)
Theorem ProductCategory_of_string_value :
  forall s c,
    ProductCategory_of_string s = Some c <-> ProductCategory_value c = s.
Proof.
  intros s c. split.
  - unfold ProductCategory_of_string. intros H.
    apply List.find_some in H as [_ H]. now apply String.eqb_eq.
  - intros <-. destruct c; reflexivity.
Qed.

(** X5. A body is accepted as a [ProductBase], and parsed into [p],
    exactly when each of the four required fields is present and [name]
    is read as a string of 1 to 100 characters, [description] as a string,
    [price] as a number greater than zero and [category] as the value of a
    member of the enumeration, [p] holding the values read; [in_stock]
    and [tags] are read likewise or are absent, and then are [True] and
    the empty list. *)
Theorem validate_ProductBase_accepts :
  forall b p,
    validate_ProductBase b = inr p
    <-> ProductBody.name b = given (ProductBase.name p)
        /\ (1 <= String.length (ProductBase.name p))%nat
        /\ (String.length (ProductBase.name p) <= 100)%nat
        /\ ProductBody.description b = given (ProductBase.description p)
        /\ ProductBody.price b = given (ProductBase.price p)
        /\ float_gt (ProductBase.price p) float_zero = true
        /\ ProductBody.category b
           = given (ProductCategory_value (ProductBase.category p))
        /\ (ProductBody.in_stock b = given (ProductBase.in_stock p)
            \/ ProductBody.in_stock b = missing /\ ProductBase.in_stock p = true)
        /\ (ProductBody.tags b = given (ProductBase.tags p)
            \/ ProductBody.tags b = missing /\ ProductBase.tags p = []).
Proof.
  intros b p. split.
  - unfold validate_ProductBase.
    destruct (check_field "body" "name" None length_1_100 (ProductBody.name b))
      as [e1|n] eqn:E1;
      destruct (check_field "body" "description" None unconstrained
                  (ProductBody.description b)) as [e2|d] eqn:E2;
      destruct (check_field "body" "price" None gt_0 (ProductBody.price b))
        as [e3|x] eqn:E3;
      destruct (check_field "body" "category" None member_of_ProductCategory
                  (ProductBody.category b)) as [e4|c] eqn:E4;
      destruct (check_field "body" "in_stock" (Some true) unconstrained
                  (ProductBody.in_stock b)) as [e5|st] eqn:E5;
      destruct (check_field "body" "tags" (Some []) unconstrained
                  (ProductBody.tags b)) as [e6|t] eqn:E6;
      try discriminate.
    intros [= <-]. simpl.
    apply check_field_accepts in E1, E2, E3, E4, E5, E6.
    destruct (ProductBody.name b) as [| |n0]; try easy.
    destruct (ProductBody.description b) as [| |d0]; try easy.
    destruct (ProductBody.price b) as [| |x0]; try easy.
    destruct (ProductBody.category b) as [| |c0]; try easy.
    apply length_1_100_accepts in E1 as (-> & Hlo & Hhi).
    apply gt_0_accepts in E3 as (-> & Hgt).
    unfold unconstrained in E2. injection E2 as ->.
    unfold member_of_ProductCategory in E4.
    destruct (ProductCategory_of_string c0) as [c1|] eqn:Ec; [|discriminate].
    injection E4 as ->. apply ProductCategory_of_string_value in Ec as <-.
    repeat split; auto.
    + destruct (ProductBody.in_stock b) as [| |s0]; try easy.
      * injection E5 as <-. now right.
      * unfold unconstrained in E5. injection E5 as ->. now left.
    + destruct (ProductBody.tags b) as [| |t0]; try easy.
      * injection E6 as <-. now right.
      * unfold unconstrained in E6. injection E6 as ->. now left.
  - intros (Hn & Hlo & Hhi & Hd & Hp & Hgt & Hc & Hs & Ht).
    destruct p as [n d x c st t]. simpl in *.
    unfold validate_ProductBase. rewrite Hn, Hd, Hp, Hc.
    unfold check_field. cbv beta iota.
    rewrite (proj2 (length_1_100_accepts n n)) by auto.
    rewrite (proj2 (gt_0_accepts x x)) by auto.
    unfold unconstrained, member_of_ProductCategory.
    rewrite (proj2 (ProductCategory_of_string_value _ c) eq_refl).
    destruct Hs as [->|[-> ->]]; destruct Ht as [->|[-> ->]]; reflexivity.
Qed.

(** X6. A title is accepted for a task exactly when it is a string of 1
    to 100 characters; the description may be absent, and is then
    [None]. *)
Theorem validate_TaskCreate_accepts :
  forall b t,
    validate_TaskCreate b = inr t
    <-> TaskBody.title b = given (TaskCreate.title t)
        /\ (1 <= String.length (TaskCreate.title t))%nat
        /\ (String.length (TaskCreate.title t) <= 100)%nat
        /\ match TaskCreate.description t with
           | Some d => TaskBody.description b = given d
           | None => TaskBody.description b = missing
           end.
Proof.
  intros b t. split.
  - unfold validate_TaskCreate.
    destruct (check_field "body" "title" None length_1_100 (TaskBody.title b))
      as [e1|n] eqn:E1;
      destruct (check_field "body" "description" (Some None)
                  (fun s : string => inr (Some s)) (TaskBody.description b))
        as [e2|d] eqn:E2; try discriminate.
    intros [= <-]. simpl.
    apply check_field_accepts in E1, E2.
    destruct (TaskBody.title b) as [| |n0]; try easy.
    apply length_1_100_accepts in E1 as (-> & Hlo & Hhi).
    repeat split; auto.
    destruct (TaskBody.description b) as [| |d0]; try easy.
    + now injection E2 as <-.
    + now injection E2 as <-.
  - intros (Hn & Hlo & Hhi & Hd). destruct t as [n d]. simpl in *.
    unfold validate_TaskCreate. rewrite Hn. unfold check_field.
    cbv beta iota. rewrite (proj2 (length_1_100_accepts n n)) by auto.
    destruct d as [d|]; rewrite Hd; reflexivity.
Qed.

Lemma validate_ProductBase_satisfies b p :
  validate_ProductBase b = inr p -> satisfies_ProductBase p = true.
Proof.
  intros H. apply validate_ProductBase_accepts in H
    as (_ & Hlo & Hhi & _ & _ & Hgt & _).
  unfold satisfies_ProductBase. rewrite Hgt.
  apply Nat.leb_le in Hlo, Hhi. now rewrite Hlo, Hhi.
Qed.

(** ** Stored records *)

Lemma boot_products_db :
  products_db boot
  = dict_set (uuid4 2%nat)
      (Product.Build (uuid4 2%nat)
         (ProductBase.Build "Organic Protein Bars"
            "Healthy protein bars made with organic ingredients"
            float_24_99 FOOD false ["organic"; "protein"; "healthy"])
         (utcnow 2%nat) (utcnow 2%nat))
      (dict_set (uuid4 1%nat)
         (Product.Build (uuid4 1%nat)
            (ProductBase.Build "Cotton T-Shirt"
               "Comfortable 100% cotton t-shirt, available in multiple colors"
               float_19_99 CLOTHING true ["cotton"; "casual"; "summer"])
            (utcnow 1%nat) (utcnow 1%nat))
         (dict_set (uuid4 0%nat)
            (Product.Build (uuid4 0%nat)
               (ProductBase.Build "Wireless Headphones"
                  "Noise-cancelling wireless headphones with 20h battery life"
                  float_99_99 ELECTRONICS true ["wireless"; "audio"; "bluetooth"])
               (utcnow 0%nat) (utcnow 0%nat))
            [])).
Proof. reflexivity. Qed.

Lemma boot_records_valid : all_records_valid boot.
Proof.
  unfold all_records_valid. rewrite dict_values_Forall, boot_products_db.
  repeat apply dict_set_Forall; try reflexivity. constructor.
Qed.

Lemma serve_records_valid r w :
  all_records_valid w -> all_records_valid (snd (serve r w)).
Proof.
  unfold all_records_valid. rewrite !dict_values_Forall. intros Hv.
  destruct r as [body|query|product_id|body|product_id body|product_id].
  - destruct (validate_TaskCreate body) as [es|task] eqn:E.
    + unfold serve. now rewrite E.
    + now rewrite (serve_POST_tasks_valid _ _ _ E).
  - destruct (validate_ProductQuery query) as [es|f] eqn:E.
    + unfold serve. now rewrite E.
    + now rewrite (serve_GET_products_valid _ _ _ E).
  - destruct (dict_contains_cases product_id (products_db w)) as [H|[p H]].
    + now rewrite (serve_GET_product_absent _ _ H).
    + now rewrite (serve_GET_product_present _ _ _ H).
  - destruct (validate_ProductBase body) as [es|product] eqn:E.
    + unfold serve. now rewrite E.
    + rewrite (serve_POST_products_valid _ _ _ E). simpl.
      apply dict_set_Forall; [|exact Hv]. simpl.
      now apply (validate_ProductBase_satisfies body).
  - destruct (validate_ProductBase body) as [es|product_update] eqn:E.
    + unfold serve. now rewrite E.
    + destruct (dict_contains_cases product_id (products_db w)) as [H|[p H]].
      * now rewrite (serve_PUT_product_absent _ _ _ _ E H).
      * rewrite (serve_PUT_product_present _ _ _ _ _ E H). simpl.
        apply dict_set_Forall; [|exact Hv]. simpl.
        now apply (validate_ProductBase_satisfies body).
  - destruct (dict_contains product_id (products_db w)) eqn:H.
    + rewrite (serve_DELETE_product_present _ _ H). simpl.
      eapply sublist_Forall_l; [apply dict_del_sublist | exact Hv].
    + now rewrite (serve_DELETE_product_absent _ _ H).
Qed.

Lemma serve_any_records_valid r w :
  all_records_valid w -> all_records_valid (snd (serve_any r w)).
Proof.
  intros Hv. destruct r as [r| |body]; simpl.
  - pose proof (serve_records_valid r w Hv) as H.
    destruct (serve r w) as [resp w']. exact H.
  - exact Hv.
  - destruct (validate_echo body) as [es|d]; simpl;
      [destruct (finite_json body) | destruct (forallb _ d)]; exact Hv.
Qed.

(** X7. The startup examples are stored without being checked, yet in
    every state the application can reach every stored product satisfies
    the bounds of its model: a name of 1 to 100 characters and a price
    greater than zero. *)
Theorem stored_products_satisfy_model :
  forall w p,
    reachable_any w ->
    In p (dict_values (products_db w)) ->
    (1 <= String.length (ProductBase.name (Product.base p)) <= 100)%nat
    /\ float_gt (ProductBase.price (Product.base p)) float_zero = true.
Proof.
  intros w p [rs ->] Hin.
  assert (Hall : all_records_valid (snd (run_any rs boot))).
  { generalize boot boot_records_valid. clear Hin.
    induction rs as [|r rs IH]; intros w0 Hw0; [exact Hw0|].
    rewrite run_any_cons. simpl. apply IH. now apply serve_any_records_valid. }
  unfold all_records_valid in Hall. rewrite List.Forall_forall in Hall.
  pose proof (Hall p Hin) as Hp. unfold satisfies_ProductBase in Hp.
  apply andb_true_iff in Hp as [Hp Hgt]. apply andb_true_iff in Hp as [Hlo Hhi].
  apply Nat.leb_le in Hlo, Hhi. auto.
Qed.

Lemma positive_ge_nonpositive (x lo : float) :
  float_gt x float_zero = true ->
  float_le lo float_zero = true ->
  float_ge x lo = true.
Proof.
  unfold float_gt, float_le, float_ge, float_zero, SFltb, SFleb.
  destruct x as [s|s| |s m e]; destruct lo as [s'|s'| |s' m' e']; simpl;
    try destruct s; try destruct s'; simpl; congruence.
Qed.

(** X8. In every reachable state a [min_price] at or below zero filters
    nothing out: the listing is the one obtained without [min_price]. *)
Theorem nonpositive_min_price_filters_nothing :
  forall w category lo max_price in_stock,
    reachable_any w ->
    float_le lo float_zero = true ->
    get_products category (Some lo) max_price in_stock w
    = get_products category None max_price in_stock w.
Proof.
  intros w category lo max_price in_stock Hr Hlo.
  rewrite !get_products_filter. f_equal. f_equal.
  apply List.filter_ext_in. intros p Hin.
  destruct (stored_products_satisfy_model w p Hr Hin) as [_ Hgt].
  unfold satisfies_filtersb.
  now rewrite (positive_ge_nonpositive _ lo Hgt Hlo).
Qed.

Lemma filter_split_length {A} (g h : A -> bool) (l : list A) :
  (length (List.filter (fun x => g x && h x) l)
   + length (List.filter (fun x => g x && negb (h x)) l)
   = length (List.filter g l))%nat.
Proof.
  induction l as [|x l IH]; simpl; [reflexivity|].
  destruct (g x), (h x); simpl; lia.
Qed.

(** X9. Whatever the other filters, the listing with [in_stock=true]
    and the listing with [in_stock=false] split the listing without
    [in_stock]: their lengths add up, and every record of the latter is
    in one of the two. *)
Theorem in_stock_listings_split :
  forall category min_price max_price w,
    exists yes no every,
      get_products category min_price max_price (Some true) w = (Returned yes, w)
      /\ get_products category min_price max_price (Some false) w
         = (Returned no, w)
      /\ get_products category min_price max_price None w = (Returned every, w)
      /\ (length yes + length no = length every)%nat
      /\ (forall p, In p every <-> In p yes \/ In p no).
Proof.
  intros category min_price max_price w.
  eexists. eexists. eexists. rewrite !get_products_filter.
  split; [reflexivity|]. split; [reflexivity|]. split; [reflexivity|].
  assert (Hyes : forall p,
    satisfies_filtersb category min_price max_price (Some true) p
    = satisfies_filtersb category min_price max_price None p
      && ProductBase.in_stock (Product.base p)).
  { intros p. unfold satisfies_filtersb. rewrite andb_true_r.
    now destruct (ProductBase.in_stock (Product.base p)). }
  assert (Hno : forall p,
    satisfies_filtersb category min_price max_price (Some false) p
    = satisfies_filtersb category min_price max_price None p
      && negb (ProductBase.in_stock (Product.base p))).
  { intros p. unfold satisfies_filtersb. rewrite andb_true_r.
    now destruct (ProductBase.in_stock (Product.base p)). }
  split.
  - rewrite (List.filter_ext _ _ Hyes), (List.filter_ext _ _ Hno).
    apply filter_split_length.
  - intros p. rewrite !List.filter_In, Hyes, Hno.
    destruct (satisfies_filtersb category min_price max_price None p);
      destruct (ProductBase.in_stock (Product.base p)); simpl; intuition congruence.
Qed.

(** X10. The two collections are independent: [POST /tasks] never
    changes the product store, and no product route changes the task
    store. *)
Theorem collections_are_independent :
  forall r w,
    match r with
    | POST_tasks _ => products_db (snd (serve r w)) = products_db w
    | _ => tasks_db (snd (serve r w)) = tasks_db w
    end.
Proof.
  intros r w.
  destruct r as [body|query|product_id|body|product_id body|product_id].
  - destruct (validate_TaskCreate body) as [es|task] eqn:Eq.
    + unfold serve. now rewrite Eq.
    + now rewrite (serve_POST_tasks_valid _ _ _ Eq).
  - destruct (validate_ProductQuery query) as [es|f] eqn:Eq.
    + unfold serve. now rewrite Eq.
    + now rewrite (serve_GET_products_valid _ _ _ Eq).
  - destruct (dict_contains_cases product_id (products_db w)) as [H|[p H]].
    + now rewrite (serve_GET_product_absent _ _ H).
    + now rewrite (serve_GET_product_present _ _ _ H).
  - destruct (validate_ProductBase body) as [es|product0] eqn:Eq.
    + unfold serve. now rewrite Eq.
    + now rewrite (serve_POST_products_valid _ _ _ Eq).
  - destruct (validate_ProductBase body) as [es|product_update] eqn:Eq.
    + unfold serve. now rewrite Eq.
    + destruct (dict_contains_cases product_id (products_db w)) as [H|[p H]].
      * now rewrite (serve_PUT_product_absent _ _ _ _ Eq H).
      * now rewrite (serve_PUT_product_present _ _ _ _ _ Eq H).
  - destruct (dict_contains product_id (products_db w)) eqn:H.
    + now rewrite (serve_DELETE_product_present _ _ H).
    + now rewrite (serve_DELETE_product_absent _ _ H).
Qed.

(** ** Updates and creations *)

(** X11. An update is a full replacement: when the body leaves out
    [in_stock] and [tags], the record [update_product] returns and stores
    has [in_stock = True] and no tags, whatever the stored record had. *)
Theorem update_resets_omitted_fields :
  forall product_id body product_update current_product w,
    dict_get product_id (products_db w) = Some current_product ->
    validate_ProductBase body = inr product_update ->
    ProductBody.in_stock body = missing ->
    ProductBody.tags body = missing ->
    exists updated w',
      update_product product_id product_update w = (Returned updated, w')
      /\ snd (serve (PUT_product product_id body) w) = w'
      /\ dict_get product_id (products_db w') = Some updated
      /\ ProductBase.in_stock (Product.base updated) = true
      /\ ProductBase.tags (Product.base updated) = [].
Proof.
  intros product_id body product_update current_product w Hget Hv Hs Ht.
  eexists. eexists. split.
  { apply (update_product_present _ _ _ _ Hget). }
  split.
  { now rewrite (serve_PUT_product_present _ _ _ _ _ Hv Hget). }
  simpl. split; [apply dict_get_set_eq|].
  apply validate_ProductBase_accepts in Hv
    as (_ & _ & _ & _ & _ & _ & _ & Hs' & Ht').
  rewrite Hs in Hs'. rewrite Ht in Ht'.
  destruct Hs' as [Hs'|[_ Hs']]; [discriminate|].
  destruct Ht' as [Ht'|[_ Ht']]; [discriminate|]. auto.
Qed.

(** X12. Two successive updates of a stored product leave the store
    as the second one alone would, but for the clock: the record the
    second [update_product] returns and stores has the fields of the
    second body, the identifier and [created_at] of the original record,
    and sits at the original position. *)
Theorem last_update_wins :
  forall product_id body1 body2 u1 u2 current_product w,
    dict_get product_id (products_db w) = Some current_product ->
    validate_ProductBase body1 = inr u1 ->
    validate_ProductBase body2 = inr u2 ->
    exists w1 final w2,
      snd (serve (PUT_product product_id body1) w) = w1
      /\ update_product product_id u2 w1 = (Returned final, w2)
      /\ snd (serve (PUT_product product_id body2) w1) = w2
      /\ final
         = Product.Build (Product.id current_product) u2
             (Product.created_at current_product) (utcnow (S (clock_calls w)))
      /\ products_db w2 = dict_set product_id final (products_db w)
      /\ dict_keys (products_db w2) = dict_keys (products_db w).
Proof.
  intros product_id body1 body2 u1 u2 current_product w Hget Hv1 Hv2.
  eexists. eexists. eexists. split; [reflexivity|].
  rewrite (serve_PUT_product_present _ _ _ _ _ Hv1 Hget). cbn [snd].
  assert (Hget1 :
            dict_get product_id
              (products_db
                 (World
                    (dict_set product_id
                       (Product.Build (Product.id current_product) u1
                          (Product.created_at current_product)
                          (utcnow (clock_calls w)))
                       (products_db w))
                    (tasks_db w) (uuid_calls w) (S (clock_calls w))))
            = Some (Product.Build (Product.id current_product) u1
                      (Product.created_at current_product)
                      (utcnow (clock_calls w)))).
  { simpl. apply dict_get_set_eq. }
  split; [apply (update_product_present _ _ _ _ Hget1)|].
  split; [now rewrite (serve_PUT_product_present _ _ _ _ _ Hv2 Hget1)|].
  simpl. split; [reflexivity|]. split; [apply dict_set_set|].
  rewrite dict_set_set. apply dict_set_present.
  apply dict_contains_get. eauto.
Qed.

(** X13. [create_product] does not look whether the generated
    identifier is already a key: when it is, the creation still returns
    its record, and the record stored under that identifier is replaced
    by the new one, at its position, every other key keeping its
    record. *)
Theorem create_on_taken_identifier_overwrites :
  forall body product old w,
    validate_ProductBase body = inr product ->
    dict_get (uuid4 (uuid_calls w)) (products_db w) = Some old ->
    exists p w',
      create_product product w = (Returned p, w')
      /\ snd (serve (POST_products body) w) = w'
      /\ Product.id p = uuid4 (uuid_calls w)
      /\ dict_get (uuid4 (uuid_calls w)) (products_db w') = Some p
      /\ dict_keys (products_db w') = dict_keys (products_db w)
      /\ (forall k, k <> uuid4 (uuid_calls w) ->
            dict_get k (products_db w') = dict_get k (products_db w)).
Proof.
  intros body product old w Hv Hold. eexists. eexists. split.
  { apply create_product_returns. }
  split; [now rewrite (serve_POST_products_valid _ _ _ Hv)|].
  simpl. split; [reflexivity|]. split; [apply dict_get_set_eq|]. split.
  - apply dict_set_present. apply dict_contains_get. eauto.
  - intros k Hk. now apply dict_get_set_ne.
Qed.

(** ** All eight routes *)

(** X14. With a clock that never goes back, in every state reached
    through any of the eight routes, health checks included, every stored
    product has [created_at <= updated_at]. *)
Theorem created_at_le_updated_at_all_routes :
  (forall i j : nat, (i <= j)%nat -> utcnow i <= utcnow j) ->
  forall w p,
    reachable_any w ->
    In p (dict_values (products_db w)) ->
    Product.created_at p <= Product.updated_at p.
Proof.
  intros Hmono w p Hr Hin.
  pose proof (reachable_any_timestamps w Hr) as Ht.
  unfold timestamps_from_clock in Ht. rewrite List.Forall_forall in Ht.
  destruct (Ht _ Hin) as (i & j & Hij & Hj & Hc & Hu).
  rewrite Hc, Hu. now apply Hmono.
Qed.

(** X15. Whatever [uuid.uuid4()] answers, in every state reached
    through any of the eight routes the stored products have pairwise
    distinct identifiers, and each is stored under its own identifier. *)
Theorem live_identifiers_distinct :
  forall w,
    reachable_any w ->
    NoDup (map Product.id (dict_values (products_db w)))
    /\ (forall k p, dict_get k (products_db w) = Some p -> Product.id p = k).
Proof.
  intros w Hr. destruct (reachable_any_well_keyed w Hr) as [Hk Hn]. split.
  - now rewrite keyed_values_ids.
  - intros k p Hget. apply dict_get_values in Hget.
    unfold keyed_by_id in Hk. rewrite List.Forall_forall in Hk.
    exact (Hk _ Hget).
Qed.

(** X16. When the five identifiers drawn at startup, [uuid4] 0 to 4,
    are pairwise distinct, [startup_event] leaves the three example products in the
    store, in the order of the source, each stamped with
    [created_at = updated_at], and the two example tasks. *)
Theorem startup_seeds_examples :
  NoDup [uuid4 0%nat; uuid4 1%nat; uuid4 2%nat; uuid4 3%nat; uuid4 4%nat] ->
  dict_keys (products_db boot) = [uuid4 0%nat; uuid4 1%nat; uuid4 2%nat]
  /\ map Product.base (dict_values (products_db boot)) = example_products
  /\ Forall (fun p => Product.created_at p = Product.updated_at p)
       (dict_values (products_db boot))
  /\ dict_keys (tasks_db boot) = [uuid4 3%nat; uuid4 4%nat]
  /\ map Task.fields (dict_values (tasks_db boot)) = example_tasks.
Proof.
  intros Hnd.
  apply NoDup_cons in Hnd as [H0 Hnd].
  apply NoDup_cons in Hnd as [H1 Hnd].
  apply NoDup_cons in Hnd as [_ Hnd].
  apply NoDup_cons in Hnd as [H3 _].
  assert (H01 : String.eqb (uuid4 0%nat) (uuid4 1%nat) = false).
  { apply String.eqb_neq. intros Heq. apply H0. rewrite Heq. apply list_elem_of_In. simpl. auto. }
  assert (H02 : String.eqb (uuid4 0%nat) (uuid4 2%nat) = false).
  { apply String.eqb_neq. intros Heq. apply H0. rewrite Heq. apply list_elem_of_In. simpl. auto. }
  assert (H12 : String.eqb (uuid4 1%nat) (uuid4 2%nat) = false).
  { apply String.eqb_neq. intros Heq. apply H1. rewrite Heq. apply list_elem_of_In. simpl. auto. }
  assert (H34 : String.eqb (uuid4 3%nat) (uuid4 4%nat) = false).
  { apply String.eqb_neq. intros Heq. apply H3. rewrite Heq. apply list_elem_of_In. simpl. auto. }
  split; [|split; [|split; [|split]]].
  - unfold boot, startup_event. cbn. rewrite H01. cbn. rewrite H02, H12.
    reflexivity.
  - unfold boot, startup_event. cbn. rewrite H01. cbn. rewrite H02, H12.
    reflexivity.
  - rewrite dict_values_Forall, boot_products_db.
    repeat apply dict_set_Forall; try reflexivity. constructor.
  - unfold boot, startup_event. cbn. now rewrite H34.
  - unfold boot, startup_event. cbn. now rewrite H34.
Qed.

(** ** Rejected requests *)

(** X23. For every body whose [price] is a number less than or equal
    to zero, the body is rejected with a violation located at the [price]
    field of the body and [POST /products] leaves the process as it was:
    nothing is inserted.  When the body holds no infinity and no NaN the
    answer is the 422 with the violations. *)
Theorem create_rejects_nonpositive_price :
  forall body x w,
    ProductBody.price body = given x ->
    float_le x float_zero = true ->
    exists errors,
      validate_ProductBase body = inl errors
      /\ In {| loc := ["body"; "price"]; kind := not_gt |} errors
      /\ snd (serve (POST_products body) w) = w
      /\ (finite_json (ProductBody.sent body) = true ->
          serve (POST_products body) w
          = ({| status := 422; payload := json_validation errors |}, w)).
Proof.
  intros body x w Hp Hx.
  destruct (validate_ProductBase_price body x Hp Hx) as (es & Hv & Hin).
  exists es. split; [exact Hv|]. split; [exact Hin|].
  unfold serve. rewrite Hv. unfold unprocessable. split; [reflexivity|].
  intros HF. now rewrite (validation_response_finite _ _ HF).
Qed.


(** * The schema patch *)

Lemma for_all_succeeds {A B} (f : A -> option B) (xs : list A) :
  Forall (fun x => exists y, f x = Some y) xs -> exists ys, for_all f xs = Some ys.
Proof.
  induction xs as [|x xs IH]; intros HF; simpl; [eauto|].
  apply Forall_cons in HF as [[y Hy] HF]. rewrite Hy.
  destruct (IH HF) as [ys Hys]. rewrite Hys. eauto.
Qed.

Lemma for_all_results {A B} (f : A -> option B) (xs : list A) (ys : list B) :
  for_all f xs = Some ys -> Forall2 (fun x y => f x = Some y) xs ys.
Proof.
  revert ys. induction xs as [|x xs IH]; intros ys; simpl.
  - intros [= <-]. constructor.
  - destruct (f x) as [y|] eqn:Ey; [|discriminate].
    destruct (for_all f xs) as [ys'|]; [|discriminate].
    intros [= <-]. constructor; auto.
Qed.

Lemma for_all_weaken {A B} (f g : A -> option B) (xs : list A) (ys : list B) :
  (forall x y, In x xs -> f x = Some y -> g x = Some y) ->
  for_all f xs = Some ys -> for_all g xs = Some ys.
Proof.
  revert ys. induction xs as [|x xs IH]; intros ys Hfg; simpl; [auto|].
  destruct (f x) as [y|] eqn:Ey; [|discriminate].
  rewrite (Hfg x y (or_introl eq_refl) Ey).
  destruct (for_all f xs) as [ys'|] eqn:E; [|discriminate].
  rewrite (IH ys') by (intros; eauto using in_cons). auto.
Qed.

Lemma for_all_entries (g : json -> option json) (d d' : dict json) :
  for_all (fun kv => option_map (pair (fst kv)) (g (snd kv))) d = Some d' ->
  Forall2 (fun kv kv' => fst kv' = fst kv /\ g (snd kv) = Some (snd kv')) d d'.
Proof.
  intros H. apply for_all_results in H.
  induction H as [|[k v] [k' v'] d d' Hx H IH]; constructor; auto.
  simpl in *. destruct (g v); simpl in Hx; [|discriminate].
  now injection Hx as <- <-.
Qed.

Lemma entries_keys (g : json -> option json) (d d' : dict json) :
  Forall2 (fun kv kv' => fst kv' = fst kv /\ g (snd kv) = Some (snd kv')) d d' ->
  dict_keys d' = dict_keys d.
Proof.
  unfold dict_keys. induction 1 as [|kv kv' d d' [Hk _] H IH]; simpl; congruence.
Qed.

Lemma entries_get (g : json -> option json) (d d' : dict json) (k : string) :
  Forall2 (fun kv kv' => fst kv' = fst kv /\ g (snd kv) = Some (snd kv')) d d' ->
  dict_get k d' = match dict_get k d with Some v => g v | None => None end.
Proof.
  induction 1 as [|[k0 v] [k0' v'] d d' [Hk Hv] H IH]; simpl; [reflexivity|].
  simpl in Hk, Hv. subst k0'. destruct (String.eqb k0 k); auto.
Qed.

Lemma patch_scalar fuel v :
  match v with JList _ | JDict _ => False | _ => True end ->
  patch_exclusive_min_max (S fuel) v = Some v.
Proof. destruct v; simpl; tauto. Qed.

Lemma patch_number fuel v r :
  patch_exclusive_min_max fuel v = Some r ->
  is_int_or_float r = is_int_or_float v
  /\ (is_int_or_float v = true -> r = v).
Proof.
  destruct fuel as [|fuel]; [discriminate|].
  destruct v; simpl; try (intros [= <-]; auto).
  - destruct (for_all _ items); simpl; [|discriminate].
    intros [= <-]. split; [reflexivity | discriminate].
  - destruct (for_all _ _); simpl; [|discriminate].
    intros [= <-]. split; [reflexivity | discriminate].
Qed.

Lemma list_max_bound (l : list nat) (n : nat) :
  (List.list_max l < n)%nat -> Forall (fun k => (k < n)%nat) l.
Proof.
  intros H. pose proof (proj1 (List.list_max_le l (List.list_max l)) (le_n _)) as HF.
  eapply Forall_impl; [exact HF|]. intros k Hk. simpl in Hk. lia.
Qed.

Lemma patch_bound_depth exclusive plain (d : dict json) (n : nat) :
  Forall (fun kv => (depth (snd kv) < n)%nat) d ->
  Forall (fun kv => (depth (snd kv) < n)%nat) (patch_bound exclusive plain d).
Proof.
  intros HF. unfold patch_bound.
  destruct (dict_get exclusive d) as [v|] eqn:E; [|exact HF].
  destruct (is_int_or_float v) eqn:Ev; [|exact HF].
  apply dict_set_Forall; [|apply dict_set_Forall; [|exact HF]]; simpl.
  - destruct d; [discriminate|].
    apply Forall_cons in HF as [Hp _]. lia.
  - destruct v; try discriminate; simpl;
      (destruct d; [discriminate | apply Forall_cons in HF as [Hp _]; lia]).
Qed.

Lemma patch_succeeds fuel schema :
  (depth schema < fuel)%nat ->
  exists r, patch_exclusive_min_max fuel schema = Some r.
Proof.
  revert schema. induction fuel as [|fuel IH]; intros schema Hd; [lia|].
  destruct schema as [|b|n|x|s|items|entries]; simpl; eauto.
  - simpl in Hd.
    destruct (for_all_succeeds (patch_exclusive_min_max fuel) items) as [ys Hys].
    + assert (Hlt : (List.list_max (map depth items) < fuel)%nat) by lia.
      apply list_max_bound in Hlt. apply List.Forall_map in Hlt.
      eapply Forall_impl; [exact Hlt|]. intros v Hv. now apply IH.
    + rewrite Hys. simpl. eauto.
  - simpl in Hd.
    assert (Hlt : (List.list_max (map (fun kv => depth (snd kv)) entries) < fuel)%nat)
      by lia.
    apply list_max_bound in Hlt. apply List.Forall_map in Hlt.
    apply (patch_bound_depth "exclusiveMinimum" "minimum") in Hlt.
    apply (patch_bound_depth "exclusiveMaximum" "maximum") in Hlt.
    destruct (for_all_succeeds
                (fun kv => option_map (pair (fst kv))
                             (patch_exclusive_min_max fuel (snd kv)))
                (patch_bound "exclusiveMaximum" "maximum"
                   (patch_bound "exclusiveMinimum" "minimum" entries)))
      as [ys Hys].
    + eapply Forall_impl; [exact Hlt|]. intros kv Hkv.
      destruct (IH _ Hkv) as [r Hr]. rewrite Hr. simpl. eauto.
    + rewrite Hys. simpl. eauto.
Qed.

Lemma patch_more_fuel fuel schema r :
  patch_exclusive_min_max fuel schema = Some r ->
  patch_exclusive_min_max (S fuel) schema = Some r.
Proof.
  revert schema r. induction fuel as [|fuel IH]; intros schema r; [discriminate|].
  destruct schema as [|b|n|x|s|items|entries]; try (simpl; auto; fail).
  - intros H. change (option_map JList
                        (for_all (patch_exclusive_min_max (S fuel)) items) = Some r).
    simpl in H.
    destruct (for_all (patch_exclusive_min_max fuel) items) as [ys|] eqn:E;
      [|discriminate].
    rewrite (for_all_weaken (patch_exclusive_min_max fuel)
               (patch_exclusive_min_max (S fuel)) items ys); auto.
  - intros H.
    change (option_map JDict
              (for_all
                 (fun kv => option_map (pair (fst kv))
                              (patch_exclusive_min_max (S fuel) (snd kv)))
                 (patch_bound "exclusiveMaximum" "maximum"
                    (patch_bound "exclusiveMinimum" "minimum" entries)))
            = Some r).
    simpl in H.
    destruct (for_all _ _) as [ys|] eqn:E in H; [|discriminate].
    erewrite for_all_weaken; [exact H| |exact E].
    intros kv y _ Hy. simpl in Hy.
    destruct (patch_exclusive_min_max fuel (snd kv)) as [v|] eqn:Ev;
      [|discriminate].
    now rewrite (IH _ _ Ev).
Qed.

(** X17. The patch comes to an end on every schema: a recursion depth
    above the nesting depth of the schema is enough, and any deeper bound
    gives the same schema. *)
Theorem patch_terminates :
  forall schema fuel,
    (depth schema < fuel)%nat ->
    exists r,
      patch_exclusive_min_max fuel schema = Some r
      /\ forall fuel', (fuel <= fuel')%nat ->
           patch_exclusive_min_max fuel' schema = Some r.
Proof.
  intros schema fuel Hd. destruct (patch_succeeds fuel schema Hd) as [r Hr].
  exists r. split; [exact Hr|]. intros fuel' Hle.
  induction Hle as [|m Hle IH]; [exact Hr|]. now apply patch_more_fuel.
Qed.

Lemma patch_bound_get_other exclusive plain k (d : dict json) :
  k <> exclusive -> k <> plain ->
  dict_get k (patch_bound exclusive plain d) = dict_get k d.
Proof.
  intros He Hp. unfold patch_bound.
  destruct (dict_get exclusive d) as [v|]; [|reflexivity].
  destruct (is_int_or_float v); [|reflexivity].
  rewrite dict_get_set_ne by congruence. now rewrite dict_get_set_ne by congruence.
Qed.

Lemma patch_bound_get_number exclusive plain v (d : dict json) :
  exclusive <> plain ->
  dict_get exclusive d = Some v ->
  is_int_or_float v = true ->
  dict_get exclusive (patch_bound exclusive plain d) = Some (JBool true)
  /\ dict_get plain (patch_bound exclusive plain d) = Some v.
Proof.
  intros Hne Hget Hv. unfold patch_bound. rewrite Hget, Hv. split.
  - apply dict_get_set_eq.
  - rewrite dict_get_set_ne by congruence. apply dict_get_set_eq.
Qed.

Lemma patch_bound_flag exclusive plain (d : dict json) :
  exclusive <> plain ->
  bound_is_flag exclusive (patch_bound exclusive plain d) = true.
Proof.
  intros Hne. unfold bound_is_flag.
  destruct (dict_get exclusive d) as [v|] eqn:E.
  - destruct (is_int_or_float v) eqn:Ev.
    + now rewrite (proj1 (patch_bound_get_number _ _ _ _ Hne E Ev)).
    + unfold patch_bound. rewrite E, Ev, E. now destruct v.
  - unfold patch_bound. now rewrite E, E.
Qed.

Lemma entries_get_some (g : json -> option json) (d d' : dict json) k v :
  Forall2 (fun kv kv' => fst kv' = fst kv /\ g (snd kv) = Some (snd kv')) d d' ->
  dict_get k d = Some v ->
  exists v', g v = Some v' /\ dict_get k d' = Some v'.
Proof.
  induction 1 as [|[k0 v0] [k0' v0'] d d' [Hk Hv] H IH]; simpl; [discriminate|].
  simpl in Hk, Hv. subst k0'. destruct (String.eqb k0 k); auto.
  intros [= ->]. eauto.
Qed.

Lemma entries_get_none (g : json -> option json) (d d' : dict json) k :
  Forall2 (fun kv kv' => fst kv' = fst kv /\ g (snd kv) = Some (snd kv')) d d' ->
  dict_get k d = None -> dict_get k d' = None.
Proof.
  induction 1 as [|[k0 v0] [k0' v0'] d d' [Hk Hv] H IH]; simpl; [reflexivity|].
  simpl in Hk. subst k0'. destruct (String.eqb k0 k); [discriminate | auto].
Qed.

Lemma patch_dict fuel (d : dict json) r :
  patch_exclusive_min_max fuel (JDict d) = Some r ->
  exists fuel' d',
    fuel = S fuel' /\ r = JDict d'
    /\ Forall2
         (fun kv kv' =>
            fst kv' = fst kv
            /\ patch_exclusive_min_max fuel' (snd kv) = Some (snd kv'))
         (patch_bound "exclusiveMaximum" "maximum"
            (patch_bound "exclusiveMinimum" "minimum" d)) d'.
Proof.
  destruct fuel as [|fuel]; [discriminate|]. simpl.
  destruct (for_all _ _) as [d'|] eqn:E; [|discriminate].
  intros [= <-]. exists fuel, d'. repeat split.
  now apply for_all_entries.
Qed.

Lemma patch_list fuel (items : list json) r :
  patch_exclusive_min_max fuel (JList items) = Some r ->
  exists fuel' items',
    fuel = S fuel' /\ r = JList items'
    /\ Forall2 (fun x y => patch_exclusive_min_max fuel' x = Some y) items items'.
Proof.
  destruct fuel as [|fuel]; [discriminate|]. simpl.
  destruct (for_all _ _) as [items'|] eqn:E; [|discriminate].
  intros [= <-]. exists fuel, items'. repeat split.
  now apply for_all_results.
Qed.

(** X18. In a dict whose [exclusiveMinimum] is a number, the patched
    dict has that number under [minimum] and [True] under
    [exclusiveMinimum]; likewise for [exclusiveMaximum] and [maximum].  A
    boolean passes the [isinstance] test as well: a flag already in the
    target form is copied over the bound. *)
Theorem patch_moves_exclusive_bounds :
  forall fuel d r,
    patch_exclusive_min_max fuel (JDict d) = Some r ->
    exists d',
      r = JDict d'
      /\ (forall v,
            dict_get "exclusiveMinimum" d = Some v ->
            is_int_or_float v = true ->
            dict_get "exclusiveMinimum" d' = Some (JBool true)
            /\ dict_get "minimum" d' = Some v)
      /\ (forall v,
            dict_get "exclusiveMaximum" d = Some v ->
            is_int_or_float v = true ->
            dict_get "exclusiveMaximum" d' = Some (JBool true)
            /\ dict_get "maximum" d' = Some v).
Proof.
  intros fuel d r H.
  destruct (patch_dict fuel d r H) as (fuel' & d' & -> & -> & HF).
  exists d'. split; [reflexivity|].
  assert (Hmove : forall k v,
    dict_get k (patch_bound "exclusiveMaximum" "maximum"
                  (patch_bound "exclusiveMinimum" "minimum" d)) = Some v ->
    is_int_or_float v = true -> dict_get k d' = Some v).
  { intros k v Hk Hv.
    destruct (entries_get_some _ _ _ _ _ HF Hk) as (v' & Hv' & Hget).
    destruct (patch_number _ _ _ Hv') as [_ Heq]. now rewrite Hget, (Heq Hv). }
  split; intros v Hget Hv.
  - destruct (patch_bound_get_number "exclusiveMinimum" "minimum" v d)
      as [Hflag Hplain]; [discriminate | exact Hget | exact Hv |].
    split; apply Hmove; try reflexivity; try exact Hv;
      rewrite patch_bound_get_other by discriminate; assumption.
  - destruct (patch_bound_get_number "exclusiveMaximum" "maximum" v
                (patch_bound "exclusiveMinimum" "minimum" d))
      as [Hflag Hplain]; [discriminate | | exact Hv |].
    + rewrite patch_bound_get_other by discriminate. exact Hget.
    + split; apply Hmove; try reflexivity; assumption.
Qed.

Lemma bound_is_flag_entries fuel k (d d' : dict json) :
  Forall2
    (fun kv kv' =>
       fst kv' = fst kv /\ patch_exclusive_min_max fuel (snd kv) = Some (snd kv'))
    d d' ->
  bound_is_flag k d = true -> bound_is_flag k d' = true.
Proof.
  intros HF. unfold bound_is_flag.
  destruct (dict_get k d) as [v|] eqn:E.
  - destruct (entries_get_some _ _ _ _ _ HF E) as (v' & Hv' & ->).
    destruct (patch_number _ _ _ Hv') as [Hsame Heq].
    destruct (is_int_or_float v) eqn:Hv.
    + rewrite (Heq eq_refl). intros H0.
      destruct v; try discriminate; exact H0.
    + intros _. destruct v'; try discriminate; reflexivity.
  - now rewrite (entries_get_none _ _ _ _ HF E).
Qed.

(** X19. Once patched, a schema holds no numeric exclusive bound at any
    depth: in every dict of the result an [exclusiveMinimum] or
    [exclusiveMaximum] that is a number is [True]. *)
Theorem patch_leaves_only_flags :
  forall fuel schema r,
    patch_exclusive_min_max fuel schema = Some r ->
    exclusive_bounds_are_flags r = true.
Proof.
  induction fuel as [|fuel IH]; intros schema r H; [discriminate|].
  destruct schema as [|b|n|x|s|items|entries];
    try (simpl in H; injection H as <-; reflexivity).
  - destruct (patch_list _ _ _ H) as (fuel' & items' & [= <-] & -> & HF).
    simpl. clear H. induction HF as [|x y items items' Hxy HF IHF]; simpl; auto.
    now rewrite (IH _ _ Hxy), IHF.
  - destruct (patch_dict _ _ _ H) as (fuel' & d' & [= <-] & -> & HF).
    simpl. rewrite !andb_true_iff. repeat split.
    + apply (bound_is_flag_entries _ _ _ _ HF).
      unfold bound_is_flag. rewrite patch_bound_get_other by discriminate.
      apply (patch_bound_flag "exclusiveMinimum" "minimum"). discriminate.
    + apply (bound_is_flag_entries _ _ _ _ HF).
      apply patch_bound_flag. discriminate.
    + clear H. induction HF as [|kv kv' d0 d0' [_ Hkv] HF IHF]; simpl; auto.
      now rewrite (IH _ _ Hkv), IHF.
Qed.

Lemma dict_set_keys {V} (k : string) (v : V) (d : dict V) :
  sublist (dict_keys d) (dict_keys (dict_set k v d))
  /\ (forall k', In k' (dict_keys (dict_set k v d)) -> In k' (dict_keys d) \/ k' = k).
Proof.
  destruct (dict_contains k d) eqn:E.
  - rewrite dict_set_present by exact E. split; [reflexivity | auto].
  - rewrite dict_set_absent by exact E. unfold dict_keys. rewrite map_app. simpl.
    split.
    + apply sublist_inserts_r. reflexivity.
    + intros k' Hin. apply in_app_iff in Hin as [Hin|[<-|[]]]; auto.
Qed.

Lemma patch_bound_keys exclusive plain (d : dict json) :
  sublist (dict_keys d) (dict_keys (patch_bound exclusive plain d))
  /\ (forall k,
        In k (dict_keys (patch_bound exclusive plain d)) ->
        In k (dict_keys d) \/ k = plain).
Proof.
  unfold patch_bound. destruct (dict_get exclusive d) as [v|] eqn:E;
    [|split; [reflexivity | auto]].
  destruct (is_int_or_float v); [|split; [reflexivity | auto]].
  assert (Hin : dict_contains exclusive (dict_set plain v d) = true).
  { apply dict_contains_keys.
    destruct (dict_set_keys plain v d) as [Hsub _].
    apply list_elem_of_In. eapply elem_of_sublist; [|exact Hsub].
    apply list_elem_of_In. apply dict_contains_keys, dict_contains_get. eauto. }
  rewrite (dict_set_present _ _ _ Hin). apply dict_set_keys.
Qed.

(** X20. The patch keeps the shape of the schema: a value that is
    neither a list nor a dict is returned as it is, a list keeps its
    length, and a dict keeps its keys in their order, with at most
    [minimum] and [maximum] added. *)
Theorem patch_keeps_shape :
  forall fuel schema r,
    patch_exclusive_min_max fuel schema = Some r ->
    match schema with
    | JDict d =>
        exists d',
          r = JDict d'
          /\ sublist (dict_keys d) (dict_keys d')
          /\ (forall k,
                In k (dict_keys d') ->
                In k (dict_keys d) \/ k = "minimum" \/ k = "maximum")
    | JList items => exists items', r = JList items' /\ length items' = length items
    | _ => r = schema
    end.
Proof.
  intros fuel schema r H.
  destruct schema as [|b|n|x|s|items|entries];
    try (destruct fuel; [discriminate|]; simpl in H; now injection H as <-).
  - destruct (patch_list _ _ _ H) as (fuel' & items' & _ & -> & HF).
    exists items'. split; [reflexivity|]. symmetry.
    clear H. induction HF; simpl; congruence.
  - destruct (patch_dict _ _ _ H) as (fuel' & d' & _ & -> & HF).
    exists d'. split; [reflexivity|]. rewrite (entries_keys _ _ _ HF).
    destruct (patch_bound_keys "exclusiveMinimum" "minimum" entries) as [S1 K1].
    destruct (patch_bound_keys "exclusiveMaximum" "maximum"
                (patch_bound "exclusiveMinimum" "minimum" entries)) as [S2 K2].
    split; [etransitivity; eassumption|].
    intros k Hk. destruct (K2 k Hk) as [Hk'|Heq]; [|auto].
    destruct (K1 k Hk') as [Hk''|Heq]; auto.
Qed.

(** X21. The patch is not idempotent: [True] passes
    [isinstance(_, (int, float))], so patching a patched dict again
    writes [True] over the bound that the first pass had moved to
    [minimum]. *)
Theorem patch_twice_loses_minimum :
  forall fuel fuel' d v r1 r2,
    dict_get "exclusiveMinimum" d = Some v ->
    is_int_or_float v = true ->
    patch_exclusive_min_max fuel (JDict d) = Some r1 ->
    patch_exclusive_min_max fuel' r1 = Some r2 ->
    exists d1 d2,
      r1 = JDict d1 /\ dict_get "minimum" d1 = Some v
      /\ r2 = JDict d2 /\ dict_get "minimum" d2 = Some (JBool true)
      /\ dict_get "exclusiveMinimum" d2 = Some (JBool true).
Proof.
  intros fuel fuel' d v r1 r2 Hget Hv H1 H2.
  destruct (patch_moves_exclusive_bounds _ _ _ H1) as (d1 & -> & Hmin1 & _).
  destruct (Hmin1 v Hget Hv) as [Hflag1 Hplain1].
  destruct (patch_moves_exclusive_bounds _ _ _ H2) as (d2 & -> & Hmin2 & _).
  destruct (Hmin2 (JBool true) Hflag1 eq_refl) as [Hflag2 Hplain2].
  exists d1, d2. auto.
Qed.

(** X22. [custom_openapi] generates and patches the schema once: after
    a call that returned a schema that is not empty, every later call
    returns that same schema and leaves [app] as it is, whatever
    [get_openapi] would generate by then. *)
Theorem custom_openapi_is_cached :
  forall fuel generated app openapi_schema app',
    custom_openapi fuel generated app = Some (openapi_schema, app') ->
    truthy openapi_schema = true ->
    FastAPI.openapi_schema app' = Some openapi_schema
    /\ forall fuel' generated',
         custom_openapi fuel' generated' app' = Some (openapi_schema, app').
Proof.
  intros fuel generated app schema app' H Ht.
  assert (Hcached : FastAPI.openapi_schema app' = Some schema).
  { unfold custom_openapi in H.
    destruct (FastAPI.openapi_schema app) as [cached|] eqn:E.
    - destruct (truthy cached) eqn:Hc.
      + injection H as <- <-. exact E.
      + destruct (patch_exclusive_min_max fuel generated); [|discriminate].
        now injection H as <- <-.
    - destruct (patch_exclusive_min_max fuel generated); [|discriminate].
      now injection H as <- <-. }
  split; [exact Hcached|]. intros fuel' generated'.
  unfold custom_openapi. now rewrite Hcached, Ht.
Qed.

End Service.

(** * The claims on sample data

    The generator [sample_uuid4] answers the decimal writing of the
    number of the call, the clock [sample_utcnow] advances by one
    microsecond per call. *)

Lemma sample_uuid4_distinct :
  forall i j : nat, sample_uuid4 i = sample_uuid4 j -> i = j.
Proof. intros i j H. exact (inj pretty i j H). Qed.

Lemma sample_utcnow_monotone :
  forall i j : nat, (i <= j)%nat -> sample_utcnow i <= sample_utcnow j.
Proof. intros i j H. unfold sample_utcnow. lia. Qed.

(** The Widget scenario of the specification: the body is accepted,
    [in_stock] defaults to true and [tags] to the empty list. *)
Example widget_body_valid : validate_ProductBase widget_body = inr widget.
Proof. reflexivity. Qed.

Example boot_products :
  dict_keys (products_db (boot sample_uuid4 sample_utcnow)) = ["0"; "1"; "2"].
Proof. vm_compute. reflexivity. Qed.

(** Updating the first startup example with the Widget body. *)
Lemma update_product_replaces_witness :
  exists updated w',
    update_product sample_utcnow "0" widget (boot sample_uuid4 sample_utcnow)
    = (Returned updated, w')
    /\ snd (serve sample_uuid4 sample_utcnow (PUT_product "0" widget_body)
              (boot sample_uuid4 sample_utcnow)) = w'
    /\ Product.base updated = widget
    /\ Product.updated_at updated = 1700000000000003
    /\ Product.id updated = "0"
    /\ Product.created_at updated = 1700000000000000
    /\ dict_get "0" (products_db w') = Some updated
    /\ dict_keys (products_db w') = ["0"; "1"; "2"].
Proof.
  destruct (update_product_replaces sample_uuid4 sample_utcnow "0" widget_body
              widget
              (Product.Build "0"
                 (ProductBase.Build "Wireless Headphones"
                    "Noise-cancelling wireless headphones with 20h battery life"
                    float_99_99 ELECTRONICS true
                    ["wireless"; "audio"; "bluetooth"])
                 1700000000000000 1700000000000000)
              (boot sample_uuid4 sample_utcnow) eq_refl eq_refl)
    as (updated & w' & Hh & Hs & Hb & Hu & Hi & Hc & Hg & _ & Hk & _).
  exists updated, w'. repeat split; assumption.
Defined.

(** An unknown identifier on the booted process, with an accepted body
    for the update. *)
Lemma unknown_product_not_found_witness :
  dict_contains "no-such-product" (products_db (boot sample_uuid4 sample_utcnow))
  = false
  /\ serve sample_uuid4 sample_utcnow (GET_product "no-such-product")
       (boot sample_uuid4 sample_utcnow)
     = ({| status := 404;
           payload := json_error {| error := "Product not found"; code := 404 |} |},
        boot sample_uuid4 sample_utcnow)
  /\ serve sample_uuid4 sample_utcnow (DELETE_product "no-such-product")
       (boot sample_uuid4 sample_utcnow)
     = ({| status := 404;
           payload := json_error {| error := "Product not found"; code := 404 |} |},
        boot sample_uuid4 sample_utcnow)
  /\ serve sample_uuid4 sample_utcnow (PUT_product "no-such-product" widget_body)
       (boot sample_uuid4 sample_utcnow)
     = ({| status := 404;
           payload := json_error {| error := "Product not found"; code := 404 |} |},
        boot sample_uuid4 sample_utcnow).
Proof.
  split; [reflexivity|].
  destruct (unknown_product_not_found sample_uuid4 sample_utcnow
              "no-such-product" (boot sample_uuid4 sample_utcnow) eq_refl)
    as (Hget & Hdel & Hput).
  split; [exact Hget|]. split; [exact Hdel|]. exact (Hput widget_body).
Defined.

(** C3 as stated fails: an update of an unknown identifier whose body
    has [price = 0.0] is answered 422 with the violation of the body, not
    404. *)
Lemma unknown_product_update_rejected_first :
  dict_contains "no-such-product" (products_db (boot sample_uuid4 sample_utcnow))
  = false
  /\ serve sample_uuid4 sample_utcnow
       (PUT_product "no-such-product" free_widget_body)
       (boot sample_uuid4 sample_utcnow)
     = ({| status := 422;
           payload :=
             json_validation [{| loc := ["body"; "price"]; kind := not_gt |}] |},
        boot sample_uuid4 sample_utcnow)
  /\ status
       (fst (serve sample_uuid4 sample_utcnow
               (PUT_product "no-such-product" free_widget_body)
               (boot sample_uuid4 sample_utcnow))) <> 404.
Proof.
  split; [reflexivity|]. split; [reflexivity|]. vm_compute. discriminate.
Qed.

Lemma create_then_get_witness :
  exists p w',
    create_product sample_uuid4 sample_utcnow widget
      (boot sample_uuid4 sample_utcnow) = (Returned p, w')
    /\ snd (serve sample_uuid4 sample_utcnow (POST_products widget_body)
              (boot sample_uuid4 sample_utcnow)) = w'
    /\ get_product (Product.id p) w' = (Returned p, w').
Proof.
  exact (create_then_get sample_uuid4 sample_utcnow widget_body widget
           (boot sample_uuid4 sample_utcnow) eq_refl).
Defined.

(** After a creation and two updates, the records of the store. *)
Lemma created_at_le_updated_at_witness :
  Forall (fun p => Product.created_at p <= Product.updated_at p)
    (dict_values
       (products_db
          (snd (run sample_uuid4 sample_utcnow
                  [POST_products widget_body; PUT_product "5" widget_body;
                   PUT_product "1" widget_body]
                  (boot sample_uuid4 sample_utcnow))))).
Proof.
  apply List.Forall_forall. intros p Hin.
  destruct (created_at_le_updated_at sample_uuid4 sample_utcnow)
    as (_ & _ & Hclock).
  destruct (Hclock sample_utcnow_monotone) as [_ Hinv].
  apply (Hinv _ p (ex_intro _ _ eq_refl) Hin).
Defined.

(** C5 as stated fails: [datetime.utcnow()] reads the wall clock, which
    can be set back.  With readings that decrease, the update of the
    first startup example stores a record whose [updated_at] is earlier
    than its [created_at], and earlier than the [updated_at] it had. *)
Lemma updated_at_before_created_at :
  exists current_product p,
    dict_get "0" (products_db (boot sample_uuid4 backward_utcnow))
    = Some current_product
    /\ reachable sample_uuid4 backward_utcnow
         (snd (serve sample_uuid4 backward_utcnow (PUT_product "0" widget_body)
                 (boot sample_uuid4 backward_utcnow)))
    /\ dict_get "0"
         (products_db
            (snd (serve sample_uuid4 backward_utcnow (PUT_product "0" widget_body)
                    (boot sample_uuid4 backward_utcnow))))
       = Some p
    /\ Product.updated_at p < Product.updated_at current_product
    /\ Product.updated_at p < Product.created_at p.
Proof.
  eexists. eexists. split; [reflexivity|]. split.
  { exists [PUT_product "0" widget_body]. reflexivity. }
  split; [reflexivity|]. split; reflexivity.
Qed.

(** C6, at the input where the code fails.  The body
    [{name: Widget, description: d, price: -Infinity, category: books}]
    has a price less than or equal to zero and is rejected with the
    violation located at the [price] field of the body, yet
    [POST /products] answers 500 and not a validation error: the 422
    would repeat the rejected price, which JSON cannot write.  Nothing is
    inserted. *)
Theorem create_minus_infinity_price_answers_500 :
  ProductBody.price minus_infinity_widget_body = given (S754_infinity true)
  /\ float_le (S754_infinity true) float_zero = true
  /\ validate_ProductBase minus_infinity_widget_body
     = inl [{| loc := ["body"; "price"]; kind := not_gt |}]
  /\ serve sample_uuid4 sample_utcnow (POST_products minus_infinity_widget_body)
       (boot sample_uuid4 sample_utcnow)
     = ({| status := 500; payload := internal_server_error |},
        boot sample_uuid4 sample_utcnow).
Proof. repeat split. Qed.

(** C7, at the input where the code fails.  The update of a stored
    product with the body
    [{name: Widget, description: d, price: NaN, category: books}] fails
    validation and leaves the process as it was, yet [PUT] answers 500 and
    not a validation error: the 422 would repeat the rejected price, which
    JSON cannot write. *)
Theorem update_nan_price_answers_500 :
  dict_contains "0" (products_db (boot sample_uuid4 sample_utcnow)) = true
  /\ validation_errors (PUT_product "0" nan_widget_body)
     = [{| loc := ["body"; "price"]; kind := not_gt |}]
  /\ serve sample_uuid4 sample_utcnow (PUT_product "0" nan_widget_body)
       (boot sample_uuid4 sample_utcnow)
     = ({| status := 500; payload := internal_server_error |},
        boot sample_uuid4 sample_utcnow).
Proof. repeat split. Qed.


Example product_ids_history_sample :
  product_ids_history sample_uuid4 sample_utcnow
    [POST_products widget_body; DELETE_product "5"; POST_products widget_body]
  = ["0"; "1"; "2"; "5"; "6"].
Proof. vm_compute. reflexivity. Qed.


Lemma product_id_is_unvalidated_witness :
  status
    (fst (serve sample_uuid4 sample_utcnow (GET_product "not a uuid")
            (boot sample_uuid4 sample_utcnow))) = 404
  /\ status
       (fst (serve sample_uuid4 sample_utcnow (DELETE_product "not a uuid")
               (boot sample_uuid4 sample_utcnow))) = 404.
Proof.
  destruct (product_id_is_unvalidated sample_uuid4 sample_utcnow "not a uuid"
              (boot sample_uuid4 sample_utcnow))
    as (_ & _ & _ & _ & _ & Habsent).
  destruct (Habsent eq_refl) as (Hget & Hdel & _).
  split; assumption.
Defined.

Lemma listing_in_creation_order_witness :
  sublist
    (map Product.id
       (dict_values
          (products_db
             (snd (run sample_uuid4 sample_utcnow
                     [POST_products widget_body; PUT_product "0" widget_body;
                      DELETE_product "1"]
                     (boot sample_uuid4 sample_utcnow))))))
    (product_ids_history sample_uuid4 sample_utcnow
       [POST_products widget_body; PUT_product "0" widget_body;
        DELETE_product "1"]).
Proof.
  exact (proj1 (proj2 (proj2 (listing_in_creation_order sample_uuid4 sample_utcnow
                                sample_uuid4_distinct
                                [POST_products widget_body;
                                 PUT_product "0" widget_body;
                                 DELETE_product "1"])))).
Defined.

(** What the listing of that run is. *)
Example listing_sample :
  map Product.id
    (dict_values
       (products_db
          (snd (run sample_uuid4 sample_utcnow
                  [POST_products widget_body; PUT_product "0" widget_body;
                   DELETE_product "1"]
                  (boot sample_uuid4 sample_utcnow)))))
  = ["0"; "2"; "5"].
Proof. vm_compute. reflexivity. Qed.

(** C10 as stated fails: a record created under an identifier that is
    already a key takes the place of the record it replaces.  With a
    generator that answers 0, 1, 0, the third startup example is listed
    first, before the second, which was created earlier. *)
Lemma listing_not_in_creation_order :
  exists ps,
    get_products None None None None (boot alternating_uuid4 sample_utcnow)
    = (Returned ps, boot alternating_uuid4 sample_utcnow)
    /\ map (fun p => ProductBase.name (Product.base p)) ps
       = ["Organic Protein Bars"; "Cotton T-Shirt"]
    /\ map Product.created_at ps = [1700000000000002; 1700000000000001].
Proof. eexists. split; [reflexivity|]. split; reflexivity. Qed.

(** The query of the specification on the booted process: only the
    headphones are electronics priced between 50 and 200. *)
Example electronics_50_200_sample :
  map Product.id
    (List.filter
       (satisfies_filtersb (Some ELECTRONICS) (Some float_50) (Some float_200) None)
       (dict_values (products_db (boot sample_uuid4 sample_utcnow))))
  = ["0"].
Proof. vm_compute. reflexivity. Qed.

(** ** Further properties on sample data *)

(** A health check and a creation, then the deletion of the created
    record. *)
Lemma delete_then_get_not_found_witness :
  exists w',
    serve sample_uuid4 sample_utcnow (DELETE_product "5")
      (snd (run_any sample_uuid4 sample_utcnow sample_isoformat
              [GET_test_health; api (POST_products widget_body)]
              (boot sample_uuid4 sample_utcnow)))
    = ({| status := 204; payload := no_content |}, w')
    /\ serve sample_uuid4 sample_utcnow (GET_product "5") w'
       = ({| status := 404; payload := json_error (detail not_found) |}, w').
Proof.
  destruct (delete_then_get_not_found sample_uuid4 sample_utcnow sample_isoformat
              (snd (run_any sample_uuid4 sample_utcnow sample_isoformat
                      [GET_test_health; api (POST_products widget_body)]
                      (boot sample_uuid4 sample_utcnow)))
              "5" (ex_intro _ _ eq_refl) eq_refl)
    as (w' & Hdel & Hget & _).
  exists w'. split; assumption.
Defined.

Lemma create_rejects_nonpositive_price_witness :
  exists errors,
    validate_ProductBase free_widget_body = inl errors
    /\ In {| loc := ["body"; "price"]; kind := not_gt |} errors
    /\ serve sample_uuid4 sample_utcnow (POST_products free_widget_body)
         (boot sample_uuid4 sample_utcnow)
       = ({| status := 422; payload := json_validation errors |},
          boot sample_uuid4 sample_utcnow).
Proof.
  destruct (create_rejects_nonpositive_price sample_uuid4 sample_utcnow
              free_widget_body float_zero (boot sample_uuid4 sample_utcnow)
              eq_refl eq_refl) as (errors & Hv & Hin & _ & Hs).
  exists errors. split; [exact Hv|]. split; [exact Hin|]. exact (Hs eq_refl).
Defined.


Lemma only_successful_writes_change_state_witness :
  snd (serve sample_uuid4 sample_utcnow (PUT_product "no-such-product" widget_body)
         (boot sample_uuid4 sample_utcnow))
  = boot sample_uuid4 sample_utcnow.
Proof.
  apply (only_successful_writes_change_state sample_uuid4 sample_utcnow).
  right. left. reflexivity.
Defined.

Lemma stored_products_satisfy_model_witness :
  (1 <= String.length "Widget" <= 100)%nat
  /\ float_gt float_9_99 float_zero = true.
Proof.
  apply (stored_products_satisfy_model sample_uuid4 sample_utcnow sample_isoformat
           (snd (run_any sample_uuid4 sample_utcnow sample_isoformat
                   [GET_test_health; api (POST_products widget_body)]
                   (boot sample_uuid4 sample_utcnow)))
           (Product.Build "5" widget 1700000000000004 1700000000000004)).
  - exists [GET_test_health; api (POST_products widget_body)]. reflexivity.
  - vm_compute. auto 10.
Defined.

Lemma nonpositive_min_price_filters_nothing_witness :
  get_products (Some ELECTRONICS) (Some float_zero) None None
    (boot sample_uuid4 sample_utcnow)
  = get_products (Some ELECTRONICS) None None None
      (boot sample_uuid4 sample_utcnow).
Proof.
  exact (nonpositive_min_price_filters_nothing sample_uuid4 sample_utcnow
           sample_isoformat (boot sample_uuid4 sample_utcnow) (Some ELECTRONICS)
           float_zero None None (ex_intro _ [] eq_refl) eq_refl).
Defined.

(** The protein bars are stored out of stock and with three tags. *)
Lemma update_resets_omitted_fields_witness :
  exists updated w',
    update_product sample_utcnow "2" widget (boot sample_uuid4 sample_utcnow)
    = (Returned updated, w')
    /\ snd (serve sample_uuid4 sample_utcnow (PUT_product "2" widget_body)
              (boot sample_uuid4 sample_utcnow)) = w'
    /\ dict_get "2" (products_db w') = Some updated
    /\ ProductBase.in_stock (Product.base updated) = true
    /\ ProductBase.tags (Product.base updated) = [].
Proof.
  exact (update_resets_omitted_fields sample_uuid4 sample_utcnow "2" widget_body
           widget
           (Product.Build "2"
              (ProductBase.Build "Organic Protein Bars"
                 "Healthy protein bars made with organic ingredients"
                 float_24_99 FOOD false ["organic"; "protein"; "healthy"])
              1700000000000002 1700000000000002)
           (boot sample_uuid4 sample_utcnow) eq_refl eq_refl eq_refl eq_refl).
Defined.

Lemma last_update_wins_witness :
  exists w1 final w2,
    snd (serve sample_uuid4 sample_utcnow (PUT_product "2" widget_body)
           (boot sample_uuid4 sample_utcnow)) = w1
    /\ update_product sample_utcnow "2" widget w1 = (Returned final, w2)
    /\ final = Product.Build "2" widget 1700000000000002 1700000000000004.
Proof.
  destruct (last_update_wins sample_uuid4 sample_utcnow "2" widget_body
              widget_body widget widget
              (Product.Build "2"
                 (ProductBase.Build "Organic Protein Bars"
                    "Healthy protein bars made with organic ingredients"
                    float_24_99 FOOD false ["organic"; "protein"; "healthy"])
                 1700000000000002 1700000000000002)
              (boot sample_uuid4 sample_utcnow) eq_refl eq_refl eq_refl)
    as (w1 & final & w2 & H1 & H2 & _ & H3 & _).
  exists w1, final, w2. repeat split; assumption.
Defined.

(** With a generator that repeats itself the startup leaves one record,
    and a creation replaces it. *)
Lemma create_on_taken_identifier_overwrites_witness :
  exists p w',
    create_product stuck_uuid4 sample_utcnow widget
      (boot stuck_uuid4 sample_utcnow) = (Returned p, w')
    /\ dict_keys (products_db (boot stuck_uuid4 sample_utcnow)) = ["dup"]
    /\ dict_keys (products_db w') = ["dup"]
    /\ dict_get "dup" (products_db w') = Some p.
Proof.
  destruct (create_on_taken_identifier_overwrites stuck_uuid4 sample_utcnow
              widget_body widget
              (Product.Build "dup"
                 (ProductBase.Build "Organic Protein Bars"
                    "Healthy protein bars made with organic ingredients"
                    float_24_99 FOOD false ["organic"; "protein"; "healthy"])
                 1700000000000002 1700000000000002)
              (boot stuck_uuid4 sample_utcnow) eq_refl eq_refl)
    as (p & w' & Hs & _ & _ & Hget & Hkeys & _).
  exists p, w'. repeat split; assumption.
Defined.

Lemma created_at_le_updated_at_all_routes_witness :
  Forall (fun p => Product.created_at p <= Product.updated_at p)
    (dict_values
       (products_db
          (snd (run_any sample_uuid4 sample_utcnow sample_isoformat
                  [api (POST_products widget_body); GET_test_health;
                   api (PUT_product "5" widget_body)]
                  (boot sample_uuid4 sample_utcnow))))).
Proof.
  apply List.Forall_forall. intros p Hin.
  exact (created_at_le_updated_at_all_routes sample_uuid4 sample_utcnow
           sample_isoformat sample_utcnow_monotone _ p
           (ex_intro _ _ eq_refl) Hin).
Defined.

Lemma live_identifiers_distinct_witness :
  NoDup
    (map Product.id
       (dict_values
          (products_db
             (snd (run_any stuck_uuid4 sample_utcnow sample_isoformat
                     [api (POST_products widget_body); GET_test_health]
                     (boot stuck_uuid4 sample_utcnow)))))).
Proof.
  exact (proj1 (live_identifiers_distinct stuck_uuid4 sample_utcnow
                  sample_isoformat _ (ex_intro _ _ eq_refl))).
Defined.

Lemma sample_startup_ids_distinct :
  NoDup [sample_uuid4 0%nat; sample_uuid4 1%nat; sample_uuid4 2%nat;
         sample_uuid4 3%nat; sample_uuid4 4%nat].
Proof.
  repeat (apply NoDup_cons; split;
          [intros H; apply list_elem_of_In in H; vm_compute in H;
           intuition discriminate|]).
  apply NoDup_nil. exact I.
Qed.

Lemma startup_seeds_examples_witness :
  dict_keys (products_db (boot sample_uuid4 sample_utcnow)) = ["0"; "1"; "2"]
  /\ map Product.base (dict_values (products_db (boot sample_uuid4 sample_utcnow)))
     = example_products.
Proof.
  destruct (startup_seeds_examples sample_uuid4 sample_utcnow
              sample_startup_ids_distinct) as (Hk & Hb & _).
  split; assumption.
Defined.

Lemma patch_terminates_witness :
  exists r,
    patch_exclusive_min_max 4 model_schema = Some r
    /\ forall fuel', (4 <= fuel')%nat ->
         patch_exclusive_min_max fuel' model_schema = Some r.
Proof.
  apply (patch_terminates model_schema 4). vm_compute. lia.
Defined.

Lemma patch_moves_exclusive_bounds_witness :
  exists d',
    patch_exclusive_min_max 2 price_schema = Some (JDict d')
    /\ dict_get "exclusiveMinimum" d' = Some (JBool true)
    /\ dict_get "minimum" d' = Some (JFloat float_zero).
Proof.
  destruct (patch_moves_exclusive_bounds 2
              [("type", JStr "number"); ("exclusiveMinimum", JFloat float_zero);
               ("title", JStr "Price")]
              (JDict [("type", JStr "number"); ("exclusiveMinimum", JBool true);
                      ("title", JStr "Price"); ("minimum", JFloat float_zero)])
              eq_refl)
    as (d' & Hr & Hmin & _).
  exists d'. split; [now rewrite <- Hr|].
  exact (Hmin (JFloat float_zero) eq_refl eq_refl).
Defined.

Lemma patch_leaves_only_flags_witness :
  exclusive_bounds_are_flags
    (JDict [("title", JStr "ProductBase");
            ("properties",
             JDict [("price",
                     JDict [("type", JStr "number");
                            ("exclusiveMinimum", JBool true);
                            ("title", JStr "Price");
                            ("minimum", JFloat float_zero)])]);
            ("required", JList [JStr "name"; JStr "price"])])
  = true.
Proof.
  exact (patch_leaves_only_flags 4 model_schema _ eq_refl).
Defined.

Lemma patch_keeps_shape_witness :
  exists d',
    JDict [("type", JStr "number"); ("exclusiveMinimum", JBool true);
           ("title", JStr "Price"); ("minimum", JFloat float_zero)]
    = JDict d'
    /\ sublist ["type"; "exclusiveMinimum"; "title"] (dict_keys d').
Proof.
  destruct (patch_keeps_shape 2 price_schema _ eq_refl) as (d' & Hr & Hsub & _).
  exists d'. split; assumption.
Defined.

Lemma patch_twice_loses_minimum_witness :
  exists d1 d2,
    patch_exclusive_min_max 2 price_schema = Some (JDict d1)
    /\ dict_get "minimum" d1 = Some (JFloat float_zero)
    /\ patch_exclusive_min_max 2 (JDict d1) = Some (JDict d2)
    /\ dict_get "minimum" d2 = Some (JBool true).
Proof.
  destruct (patch_twice_loses_minimum 2 2
              [("type", JStr "number"); ("exclusiveMinimum", JFloat float_zero);
               ("title", JStr "Price")]
              (JFloat float_zero) _ _ eq_refl eq_refl eq_refl eq_refl)
    as (d1 & d2 & H1 & Hm1 & H2 & Hm2 & _).
  exists d1, d2. injection H1 as <-. injection H2 as <-.
  repeat split; assumption.
Defined.

Lemma custom_openapi_is_cached_witness :
  exists openapi_schema app',
    custom_openapi 4 model_schema (FastAPI.Build None) = Some (openapi_schema, app')
    /\ custom_openapi 0 price_schema app' = Some (openapi_schema, app').
Proof.
  eexists. eexists. split; [reflexivity|].
  exact (proj2 (custom_openapi_is_cached 4 model_schema (FastAPI.Build None) _ _
                  eq_refl eq_refl) 0%nat price_schema).
Defined.
